(** * Cloudflare Access gate of AIOStreams: a shallow embedding

    The development follows the middleware module of the server
    (the first listing of [src/unnamed/part_000], the version that knows
    service tokens): the JWKS cache ([getCloudflareJWKS]), the token
    verifier ([verifyCloudflareAccessToken]), the bypass path matcher
    ([shouldBypassAuth]), the service-token check ([validateServiceToken])
    and the Express middleware ([cfAccessMiddleware]).

    JavaScript values are modelled by their declared TypeScript types:
    [string | undefined] is [option string], truthiness of such a value is
    [truthy], the module-level cache variables and the calls made to
    collaborators live in an explicit [World] that every async function
    threads, and a rejected promise is a [Thrown] completion. *)

From Stdlib Require Import ZArith Ascii.
From stdpp Require Import base tactics option list strings gmap pretty.

Open Scope string_scope.
Open Scope Z_scope.

(** ** JavaScript strings *)

Module JsString.

(** [s.startsWith(p)] *)
Fixpoint startsWith (s p : string) {struct p} : bool :=
  match p with
  | EmptyString => true
  | String c p' =>
      match s with
      | EmptyString => false
      | String d s' => bool_decide (d = c) && startsWith s' p'
      end
  end.

(** [s.endsWith(t)]: [t] is [s] or a suffix of the tail of [s]. *)
Fixpoint endsWith (s t : string) : bool :=
  bool_decide (s = t) ||
  match s with
  | EmptyString => false
  | String _ s' => endsWith s' t
  end.

(** The index clamping of [String.prototype.slice]. *)
Definition clamp (len i : Z) : Z :=
  if i <? 0 then Z.max (len + i) 0 else Z.min i len.

(** [s.slice(start, end)] *)
Definition slice (s : string) (start end_ : Z) : string :=
  let len := Z.of_nat (String.length s) in
  let from := clamp len start in
  let to := clamp len end_ in
  String.substring (Z.to_nat from) (Z.to_nat (Z.max (to - from) 0)) s.

(** An ASCII-only [toLowerCase], enough for header names. *)
Definition lower_ascii (c : ascii) : ascii :=
  let n := N_of_ascii c in
  if ((65 <=? n) && (n <=? 90))%N then ascii_of_N (n + 32) else c.

Fixpoint toLowerCase (s : string) : string :=
  match s with
  | EmptyString => EmptyString
  | String c s' => String (lower_ascii c) (toLowerCase s')
  end.

(** Truthiness of a string: every string but the empty one. *)
Definition nonempty (s : string) : bool :=
  match s with EmptyString => false | String _ _ => true end.

End JsString.

(** Truthiness of a value of type [string | undefined]. *)
Definition truthy (v : option string) : bool :=
  match v with
  | Some s => JsString.nonempty s
  | None => false
  end.

(** ** Configuration

    [Env] comes from [@aiostreams/core]; the middleware only reads these
    properties of it, so the configuration is a record passed in. *)

Record Env := {
  CF_ACCESS_ENABLED : bool;
  CF_ACCESS_TEAM_DOMAIN : option string;
  CF_ACCESS_AUD : option string;
  CF_ACCESS_BYPASS_PATHS : option (list string);
  CF_ACCESS_SERVICE_TOKEN_ID : option string;
  CF_ACCESS_SERVICE_TOKEN_SECRET : option string;
  LOG_SENSITIVE_INFO : bool
}.

(** ** PathMatcher *)

(** One iteration of the [for ... of] loop of [shouldBypassAuth]: [true]
    when the body returns [true] for this [bypassPath]. *)
Definition bypassPathMatches (path bypassPath : string) : bool :=
  if bool_decide (path = bypassPath) then true
  else if JsString.endsWith bypassPath "*" then
    let prefix := JsString.slice bypassPath 0 (-1) in
    if JsString.startsWith path prefix then true else false
  else false.

(** The loop itself: the first matching entry returns, the end of the
    array falls to [return false]. *)
Fixpoint bypassLoop (path : string) (bypassPaths : list string) : bool :=
  match bypassPaths with
  | [] => false
  | bypassPath :: rest =>
      if bypassPathMatches path bypassPath then true
      else bypassLoop path rest
  end.

(** [Env.CF_ACCESS_BYPASS_PATHS || []] *)
Definition bypassPathsOf (env : Env) : list string :=
  default [] (CF_ACCESS_BYPASS_PATHS env).

Definition shouldBypassAuth (env : Env) (path : string) : bool :=
  bypassLoop path (bypassPathsOf env).

(** ** Values exchanged with the collaborators *)

(** A thrown [Error]; only its message is ever read. *)
Record JsError := { message : string }.

(** A JSON value, as [response.json()] resolves to one. A number is
    the double [mantissa * 2 ^ exponent], or an infinity for a literal out
    of the range of doubles. *)
#[warnings="-register-all"]
Inductive Json :=
| JNull
| JBool (b : bool)
| JNumber (mantissa exponent : Z)
| JInfinity (negative : bool)
| JString (s : string)
| JArray (items : list Json)
| JObject (members : list (string * Json)).

(** Truthiness of a JSON value: [null], [false], zero and the empty string
    are falsy, every array and object is truthy. *)
Definition jsonTruthy (v : Json) : bool :=
  match v with
  | JNull => false
  | JBool b => b
  | JNumber mantissa _ => negb (mantissa =? 0)
  | JInfinity _ => true
  | JString s => JsString.nonempty s
  | JArray _ => true
  | JObject _ => true
  end.

(** [jose.JSONWebKeySet] is a TypeScript type and the module only ever
    casts to it ([as jose.JSONWebKeySet]): at run time a value of that type
    is whatever JSON value the key endpoint sent, a key set or not. *)
Abbreviation JSONWebKeySet := Json.

(** The claims of [jose.JWTPayload] the middleware copies. *)
Record JWTPayload := {
  email : option string;
  sub : option string;
  iat : option Z;
  exp : option Z
}.

Record JWTVerifyResult := { payload : JWTPayload }.

(** A [Response] of the fetch API: [json] is what [response.json()]
    settles to, a rejection when the body does not parse as JSON and the
    parsed value otherwise, whatever its shape. *)
Record Response := {
  status : Z;
  statusText : string;
  json : JsError + Json
}.

(** [response.ok]: the status is in the range 200-299. *)
Definition ok (response : Response) : bool :=
  (200 <=? status response) && (status response <=? 299).

(** What [await fetch(url)] settles to. *)
Inductive FetchOutcome :=
| Rejected (e : JsError)
| Resolved (response : Response).

(** ** The world the module runs in *)

(** Calls made to collaborators, newest first. *)
Inductive Event :=
| PathMatched (path : string)
| HeaderRead (name : string)
| VerifyCalled (token : string)
| Fetched (url : string)
| JwtVerified (token issuer audience : string).

Definition isFetched (e : Event) : bool :=
  match e with Fetched _ => true | _ => false end.

Definition isJwtVerified (e : Event) : bool :=
  match e with JwtVerified _ _ _ => true | _ => false end.

Definition isVerifyCalled (e : Event) : bool :=
  match e with VerifyCalled _ => true | _ => false end.

Definition isHeaderRead (name : string) (e : Event) : bool :=
  match e with HeaderRead n => bool_decide (n = name) | _ => false end.

Fixpoint countEvents (p : Event -> bool) (tr : list Event) : nat :=
  match tr with
  | [] => O
  | e :: tr' => if p e then S (countEvents p tr') else countEvents p tr'
  end.

(** Number of network calls made so far. *)
Definition fetchCount (tr : list Event) : nat := countEvents isFetched tr.

(** The two module-level cache variables, the clock [Date.now()] reads,
    and the trace of calls. [cachedJWKS] is [None] for the initial [null]
    and [Some] of the value last assigned, which is whatever the endpoint's
    body parsed to (a parsed [null] included). *)
Record World := {
  cachedJWKS : option JSONWebKeySet;
  jwksCacheTime : Z;
  clock : Z;
  trace : list Event
}.

Definition record (e : Event) (w : World) : World :=
  {| cachedJWKS := cachedJWKS w; jwksCacheTime := jwksCacheTime w;
     clock := clock w; trace := e :: trace w |}.

Definition storeJWKS (jwks : JSONWebKeySet) (now : Z) (w : World) : World :=
  {| cachedJWKS := Some jwks; jwksCacheTime := now;
     clock := clock w; trace := trace w |}.

(** The environment moving the clock between two calls. *)
Definition atTime (t : Z) (w : World) : World :=
  {| cachedJWKS := cachedJWKS w; jwksCacheTime := jwksCacheTime w;
     clock := t; trace := trace w |}.

(** The state of the module when the process starts. *)
Definition initialWorld (t : Z) : World :=
  {| cachedJWKS := None; jwksCacheTime := 0; clock := t; trace := [] |}.

(** ** Async functions: state passing with exceptions *)

Inductive completion (A : Type) :=
| Returned (a : A)
| Thrown (e : JsError).
Arguments Returned {A} a.
Arguments Thrown {A} e.

Definition M (A : Type) : Type := World -> completion A * World.

Definition ret {A} (a : A) : M A := fun w => (Returned a, w).

Definition throw {A} (e : JsError) : M A := fun w => (Thrown e, w).

Definition bind {A B} (m : M A) (k : A -> M B) : M B :=
  fun w =>
    match m w with
    | (Returned a, w') => k a w'
    | (Thrown e, w') => (Thrown e, w')
    end.

Definition tryCatch {A} (body : M A) (handler : JsError -> M A) : M A :=
  fun w =>
    match body w with
    | (Returned a, w') => (Returned a, w')
    | (Thrown e, w') => handler e w'
    end.

Notation "'let*' x ':=' m 'in' k" := (bind m (fun x => k))
  (at level 10, x name, m at level 100, k at level 200).

Definition Date_now : M Z := fun w => (Returned (clock w), w).

Definition modify (f : World -> World) : M unit := fun w => (Returned tt, f w).

Definition readCache : M (option JSONWebKeySet * Z) :=
  fun w => (Returned (cachedJWKS w, jwksCacheTime w), w).

(** String conversion of a [string | undefined] inside a template. *)
Definition interpolate (v : option string) : string := default "undefined" v.

Definition JWKS_CACHE_TTL : Z := 60 * 60 * 1000.

(** The template [`https://${teamDomain}.cloudflareaccess.com/cdn-cgi/access/certs`]. *)
Definition certsUrlOf (teamDomain : option string) : string :=
  "https://" +:+ interpolate teamDomain +:+
  ".cloudflareaccess.com/cdn-cgi/access/certs".

(** The template [`https://${teamDomain}.cloudflareaccess.com`]. *)
Definition issuerOf (teamDomain : option string) : string :=
  "https://" +:+ interpolate teamDomain +:+ ".cloudflareaccess.com".

(** ** Requests and responses *)

(** [req.cfAccessIdentity]: the object literal of the service-token branch
    ([type: 'service_token']) or of the JWT branch ([type: 'jwt']). *)
Inductive Identity :=
| ServiceTokenIdentity (clientId : string)
| JwtIdentity (email sub : option string) (iat exp : option Z).

(** The Express request as the middleware uses it. Node keys [headers] by
    lower-cased header name. *)
Record Request := {
  path : string;
  headers : gmap string string;
  requestIp : option string;
  userIp : option string;
  cfAccessIdentity : option Identity
}.

Definition setIdentity (identity : Identity) (req : Request) : Request :=
  {| path := path req; headers := headers req; requestIp := requestIp req;
     userIp := userIp req; cfAccessIdentity := Some identity |}.

(** The body given to [res.status(403).json(...)]. *)
Record DenialBody := {
  success : bool;
  error : string;
  detail : string
}.

(** How the middleware ends: [next()] or a response sent. *)
Inductive Handled :=
| Next
| Responded (code : Z) (body : DenialBody).

Definition accessDenied (detail : string) : Handled :=
  Responded 403 {| success := false; error := "Access denied"; detail := detail |}.

Definition invalidServiceToken : Handled :=
  accessDenied "Invalid service token credentials.".

Definition missingCredentials : Handled :=
  accessDenied
    "This application is protected by Cloudflare Access. Please authenticate through Cloudflare Access.".

Definition invalidAssertion : Handled :=
  accessDenied "Invalid or expired Cloudflare Access token.".

(** [req.get(name)]: Express looks the lower-cased name up in
    [req.headers]. *)
Definition header (req : Request) (name : string) : option string :=
  headers req !! JsString.toLowerCase name.

Definition req_get (req : Request) (name : string) : M (option string) :=
  fun w => (Returned (header req name), record (HeaderRead name) w).

Section Gate.

(** The network: what the [n]-th [fetch] of the process (counting from
    zero) settles to for a URL. *)
Variable network : nat -> string -> FetchOutcome.

(** [jose.createLocalJWKSet] followed by [jose.jwtVerify]: the token, the
    key set, the expected issuer and audience, the time of the check. An
    [inl] is a throw of either call; a value that is no key set is first
    looked at here, by jose. *)
Variable jwtVerify :
  string -> JSONWebKeySet -> string -> string -> Z -> JsError + JWTVerifyResult.

Variable env : Env.

(** [await fetch(url)] *)
Definition fetch (url : string) : M Response :=
  fun w =>
    match network (fetchCount (trace w)) url with
    | Rejected e => (Thrown e, record (Fetched url) w)
    | Resolved response => (Returned response, record (Fetched url) w)
    end.

(** [(await response.json()) as jose.JSONWebKeySet]: the cast checks
    nothing, any parsed value comes back. *)
Definition response_json (response : Response) : M JSONWebKeySet :=
  match json response with
  | inl e => throw e
  | inr jwks => ret jwks
  end.

(** ** KeySetCache *)

(** [getCloudflareJWKS] past the cache test (lines 23-47). *)
Definition refreshCloudflareJWKS (now : Z) : M JSONWebKeySet :=
  let teamDomain := CF_ACCESS_TEAM_DOMAIN env in
  if negb (truthy teamDomain) then
    throw {| message := "CF_ACCESS_TEAM_DOMAIN is not configured" |}
  else
    let certsUrl := certsUrlOf teamDomain in
    tryCatch
      (let* response := fetch certsUrl in
       if negb (ok response) then
         throw {| message :=
                    "Failed to fetch Cloudflare certs: " +:+
                    pretty (status response) +:+ " " +:+ statusText response |}
       else
         let* jwks := response_json response in
         let* _ := modify (storeJWKS jwks now) in
         ret jwks)
      (fun error => throw error).

Definition getCloudflareJWKS : M JSONWebKeySet :=
  let* now := Date_now in
  let* cache := readCache in
  match cache with
  | (Some jwks, cacheTime) =>
      if jsonTruthy jwks && (now - cacheTime <? JWKS_CACHE_TTL) then ret jwks
      else refreshCloudflareJWKS now
  | (None, _) => refreshCloudflareJWKS now
  end.

(** ** CredentialVerifier *)

Definition jose_jwtVerify (token : string) (jwks : JSONWebKeySet)
    (issuer audience : string) : M JWTVerifyResult :=
  fun w =>
    let w' := record (JwtVerified token issuer audience) w in
    match jwtVerify token jwks issuer audience (clock w) with
    | inl e => (Thrown e, w')
    | inr result => (Returned result, w')
    end.

Definition verifyCloudflareAccessToken (token : string) : M JWTVerifyResult :=
  let* _ := modify (record (VerifyCalled token)) in
  let teamDomain := CF_ACCESS_TEAM_DOMAIN env in
  let aud := CF_ACCESS_AUD env in
  if negb (truthy teamDomain) || negb (truthy aud) then
    throw {| message :=
               "CF_ACCESS_TEAM_DOMAIN and CF_ACCESS_AUD must be configured" |}
  else
    let* jwks := getCloudflareJWKS in
    let issuer := issuerOf teamDomain in
    let* result := jose_jwtVerify token jwks issuer (interpolate aud) in
    ret result.

(** ** Service tokens *)

Definition validateServiceToken (clientId clientSecret : option string) : bool :=
  let expectedClientId := CF_ACCESS_SERVICE_TOKEN_ID env in
  let expectedClientSecret := CF_ACCESS_SERVICE_TOKEN_SECRET env in
  if negb (truthy expectedClientId) || negb (truthy expectedClientSecret) then
    false
  else
    bool_decide (clientId = expectedClientId) &&
    bool_decide (clientSecret = expectedClientSecret).

(** ** AuthorizationGate *)

(** The call [shouldBypassAuth(req.path)] of the middleware. *)
Definition callShouldBypassAuth (path : string) : M bool :=
  fun w => (Returned (shouldBypassAuth env path), record (PathMatched path) w).

(** "Fall back to JWT authentication" (lines 173-223). *)
Definition jwtAuthentication (req : Request) : M (Handled * Request) :=
  let* cfAccessJwt := req_get req "CF-Access-JWT-Assertion" in
  match cfAccessJwt with
  | Some token =>
      if JsString.nonempty token then
        tryCatch
          (let* verifyResult := verifyCloudflareAccessToken token in
           let claims := payload verifyResult in
           ret (Next,
                setIdentity
                  (JwtIdentity (email claims) (sub claims) (iat claims) (exp claims))
                  req))
          (fun error => ret (invalidAssertion, req))
      else ret (missingCredentials, req)
  | None => ret (missingCredentials, req)
  end.

Definition cfAccessMiddleware (req : Request) : M (Handled * Request) :=
  if negb (CF_ACCESS_ENABLED env) then ret (Next, req)
  else
    let* bypass := callShouldBypassAuth (path req) in
    if bypass then ret (Next, req)
    else
      let* cfAccessClientId := req_get req "CF-Access-Client-Id" in
      let* cfAccessClientSecret := req_get req "CF-Access-Client-Secret" in
      match cfAccessClientId, cfAccessClientSecret with
      | Some clientId, Some clientSecret =>
          if JsString.nonempty clientId && JsString.nonempty clientSecret then
            if validateServiceToken cfAccessClientId cfAccessClientSecret then
              ret (Next, setIdentity (ServiceTokenIdentity clientId) req)
            else ret (invalidServiceToken, req)
          else jwtAuthentication req
      | _, _ => jwtAuthentication req
      end.

(** A driver: [getCloudflareJWKS] called once at each of the given times,
    one call after the other. *)
Fixpoint getCloudflareJWKSAt (times : list Z) (w : World)
    : list (completion JSONWebKeySet) * World :=
  match times with
  | [] => ([], w)
  | t :: times' =>
      let (r, w1) := getCloudflareJWKS (atTime t w) in
      let (rs, w2) := getCloudflareJWKSAt times' w1 in
      (r :: rs, w2)
  end.

End Gate.

(** ** Vocabulary of the specification *)

(** A bypass rule admits a path by equality, or, when it ends with the
    wildcard marker, when the path starts with the rule without it. *)
Definition ruleMatches (path rule : string) : Prop :=
  path = rule \/
  exists prefix rest, rule = prefix +:+ "*" /\ path = prefix +:+ rest.

(** The cached key set exists (the cached value is truthy) and is younger
    than the TTL at the time the clock shows. *)
Definition cacheFresh (w : World) : bool :=
  match cachedJWKS w with
  | Some jwks => jsonTruthy jwks && (clock w - jwksCacheTime w <? JWKS_CACHE_TTL)
  | None => false
  end.

(** The fetch did not deliver a key set: the promise rejected (network
    error), the status is not 2xx, or the body does not parse. *)
Definition fetchFails (outcome : FetchOutcome) : bool :=
  match outcome with
  | Rejected _ => true
  | Resolved response =>
      negb (ok response) ||
      match json response with inl _ => true | inr _ => false end
  end.

(** Both service-token headers carry a (non-empty) value. *)
Definition serviceTokenPresented (req : Request) : bool :=
  truthy (header req "CF-Access-Client-Id") &&
  truthy (header req "CF-Access-Client-Secret").

(** The non-terminal states of the gate, as the specification names them. *)
Inductive GateState :=
| Disabled
| Bypassed
| CheckingServiceToken
| CheckingAssertion.

Definition gateState (env : Env) (req : Request) : GateState :=
  if negb (CF_ACCESS_ENABLED env) then Disabled
  else if shouldBypassAuth env (path req) then Bypassed
  else if serviceTokenPresented req then CheckingServiceToken
  else CheckingAssertion.

(** The calls that belong to the signed-assertion branch: reading the
    assertion header, the verifier, and what the verifier calls. *)
Definition isAssertionEvent (e : Event) : bool :=
  isHeaderRead "CF-Access-JWT-Assertion" e || isVerifyCalled e ||
  isFetched e || isJwtVerified e.

(** The identity object the JWT branch builds from the verified claims. *)
Definition identityOfClaims (claims : JWTPayload) : Identity :=
  JwtIdentity (email claims) (sub claims) (iat claims) (exp claims).

(** A request with the annotation the gate attached, if it attached one. *)
Definition annotate (annotation : option Identity) (req : Request) : Request :=
  match annotation with
  | Some identity => setIdentity identity req
  | None => req
  end.

(** The world once the middleware has matched the path and read the two
    service-token headers, and once it has read the assertion header. *)
Definition afterCredentialRead (req : Request) (w : World) : World :=
  record (HeaderRead "CF-Access-Client-Secret")
    (record (HeaderRead "CF-Access-Client-Id")
       (record (PathMatched (path req)) w)).

Definition afterAssertionRead (req : Request) (w : World) : World :=
  record (HeaderRead "CF-Access-JWT-Assertion") (afterCredentialRead req w).

(** ** Sample configuration, collaborators and requests *)

Module Sample.

Definition env : Env :=
  {| CF_ACCESS_ENABLED := true;
     CF_ACCESS_TEAM_DOMAIN := Some "team";
     CF_ACCESS_AUD := Some "aud-tag";
     CF_ACCESS_BYPASS_PATHS := Some ["/api/v1/health"; "/health/*"];
     CF_ACCESS_SERVICE_TOKEN_ID := Some "svc-id";
     CF_ACCESS_SERVICE_TOKEN_SECRET := Some "svc-secret";
     LOG_SENSITIVE_INFO := false |}.

Definition envDisabled : Env :=
  {| CF_ACCESS_ENABLED := false;
     CF_ACCESS_TEAM_DOMAIN := None;
     CF_ACCESS_AUD := None;
     CF_ACCESS_BYPASS_PATHS := None;
     CF_ACCESS_SERVICE_TOKEN_ID := None;
     CF_ACCESS_SERVICE_TOKEN_SECRET := None;
     LOG_SENSITIVE_INFO := false |}.

(** The sample configuration with the bypass list in another order. *)
Definition envReordered : Env :=
  {| CF_ACCESS_ENABLED := true;
     CF_ACCESS_TEAM_DOMAIN := Some "team";
     CF_ACCESS_AUD := Some "aud-tag";
     CF_ACCESS_BYPASS_PATHS := Some ["/health/*"; "/api/v1/health"];
     CF_ACCESS_SERVICE_TOKEN_ID := Some "svc-id";
     CF_ACCESS_SERVICE_TOKEN_SECRET := Some "svc-secret";
     LOG_SENSITIVE_INFO := false |}.

(** The sample configuration without issuer and audience. *)
Definition envNoIssuer : Env :=
  {| CF_ACCESS_ENABLED := true;
     CF_ACCESS_TEAM_DOMAIN := None;
     CF_ACCESS_AUD := None;
     CF_ACCESS_BYPASS_PATHS := Some ["/api/v1/health"; "/health/*"];
     CF_ACCESS_SERVICE_TOKEN_ID := Some "svc-id";
     CF_ACCESS_SERVICE_TOKEN_SECRET := Some "svc-secret";
     LOG_SENSITIVE_INFO := false |}.

Definition jwks : JSONWebKeySet :=
  JObject [("keys",
            JArray [JObject [("kty", JString "RSA"); ("kid", JString "k1");
                             ("alg", JString "RS256"); ("n", JString "n-of-k1");
                             ("e", JString "AQAB")]])].

Definition claims : JWTPayload :=
  {| email := Some "user@example.com"; sub := Some "user-1";
     iat := Some 1700000000; exp := Some 1700003600 |}.

(** A network that always serves the key set, and one that is down. *)
Definition networkUp : nat -> string -> FetchOutcome :=
  fun _ _ => Resolved {| status := 200; statusText := "OK"; json := inr jwks |}.

Definition networkDown : nat -> string -> FetchOutcome :=
  fun _ _ => Rejected {| message := "fetch failed" |}.

Definition networkUnavailable : nat -> string -> FetchOutcome :=
  fun _ _ =>
    Resolved {| status := 503; statusText := "Service Unavailable";
                json := inl {| message := "Unexpected token" |} |}.

(** A verifier that accepts exactly the token ["valid.jwt"]. *)
Definition verifier : string -> JSONWebKeySet -> string -> string -> Z
                      -> JsError + JWTVerifyResult :=
  fun token _ _ _ _ =>
    if bool_decide (token = "valid.jwt") then inr {| payload := claims |}
    else inl {| message := "signature verification failed" |}.

Definition request (path : string) (hs : list (string * string)) : Request :=
  {| path := path; headers := list_to_map hs; requestIp := None;
     userIp := None; cfAccessIdentity := None |}.

(** Wrong secret next to a valid assertion. *)
Definition wrongSecret : Request :=
  request "/secure"
    [("cf-access-client-id", "svc-id"); ("cf-access-client-secret", "nope");
     ("cf-access-jwt-assertion", "valid.jwt")].

(** The same on a bypassed path. *)
Definition wrongSecretOnHealth : Request :=
  request "/api/v1/health"
    [("cf-access-client-id", "svc-id"); ("cf-access-client-secret", "nope");
     ("cf-access-jwt-assertion", "valid.jwt")].

(** A client-id header that is present with an empty value. *)
Definition emptyClientId : Request :=
  request "/secure"
    [("cf-access-client-id", ""); ("cf-access-client-secret", "nope");
     ("cf-access-jwt-assertion", "valid.jwt")].

(** A client-id header without its companion, next to a valid assertion. *)
Definition loneClientId : Request :=
  request "/secure"
    [("cf-access-client-id", "svc-id"); ("cf-access-jwt-assertion", "valid.jwt")].

Definition goodServiceToken : Request :=
  request "/secure"
    [("cf-access-client-id", "svc-id"); ("cf-access-client-secret", "svc-secret")].

Definition goodAssertion : Request :=
  request "/secure" [("cf-access-jwt-assertion", "valid.jwt")].

(** The same credentials with other headers and attributes around them. *)
Definition goodAssertionFromElsewhere : Request :=
  {| path := "/secure";
     headers := list_to_map [("cf-access-jwt-assertion", "valid.jwt");
                             ("user-agent", "Stremio"); ("accept", "*/*")];
     requestIp := Some "203.0.113.50"; userIp := Some "198.51.100.7";
     cfAccessIdentity := None |}.

Definition noHeaders : Request := request "/secure" [].

End Sample.

(** ** The middleware before service tokens

    The second listing of [src/unnamed/part_000] is the module as it was
    before service tokens: [getCloudflareJWKS],
    [verifyCloudflareAccessToken] and [shouldBypassAuth] are the same text,
    the middleware goes from the bypass test straight to the assertion
    header, and the identity object has no [type] field. *)

(** The object literal [{ email, sub, iat, exp }] of that version. *)
Record LegacyIdentity := {
  legacyEmail : option string;
  legacySub : option string;
  legacyIat : option Z;
  legacyExp : option Z
}.

Section LegacyGate.

Variable network : nat -> string -> FetchOutcome.
Variable jwtVerify :
  string -> JSONWebKeySet -> string -> string -> Z -> JsError + JWTVerifyResult.
Variable env : Env.

(** The outcome comes with the object assigned to [req.cfAccessIdentity],
    if one was assigned; nothing else of the request is written. *)
Definition cfAccessMiddlewareLegacy (req : Request)
    : M (Handled * option LegacyIdentity) :=
  if negb (CF_ACCESS_ENABLED env) then ret (Next, None)
  else
    let* bypass := callShouldBypassAuth env (path req) in
    if bypass then ret (Next, None)
    else
      let* cfAccessJwt := req_get req "CF-Access-JWT-Assertion" in
      match cfAccessJwt with
      | Some token =>
          if JsString.nonempty token then
            tryCatch
              (let* verifyResult :=
                 verifyCloudflareAccessToken network jwtVerify env token in
               let claims := payload verifyResult in
               ret (Next,
                    Some {| legacyEmail := email claims; legacySub := sub claims;
                            legacyIat := iat claims; legacyExp := exp claims |}))
              (fun error => ret (invalidAssertion, None))
          else ret (missingCredentials, None)
      | None => ret (missingCredentials, None)
      end.

End LegacyGate.

(** The identity of the later version without its [type] field. *)
Definition withoutType (identity : Identity) : option LegacyIdentity :=
  match identity with
  | JwtIdentity email sub iat exp =>
      Some {| legacyEmail := email; legacySub := sub;
              legacyIat := iat; legacyExp := exp |}
  | ServiceTokenIdentity _ => None
  end.

(** Two worlds that differ at most in the calls recorded, with as many
    fetches made in both. *)
Definition sameState (w1 w2 : World) : Prop :=
  cachedJWKS w1 = cachedJWKS w2 /\
  jwksCacheTime w1 = jwksCacheTime w2 /\
  clock w1 = clock w2 /\
  fetchCount (trace w1) = fetchCount (trace w2).

(** A driver: the middleware run on one request after the other, each at
    the time given with it. *)
Fixpoint cfAccessMiddlewareAt (network : nat -> string -> FetchOutcome)
    (jwtVerify : string -> JSONWebKeySet -> string -> string -> Z
                 -> JsError + JWTVerifyResult)
    (env : Env) (requests : list (Z * Request)) (w : World)
    : list (completion (Handled * Request)) * World :=
  match requests with
  | [] => ([], w)
  | (t, req) :: rest =>
      let (r, w1) := cfAccessMiddleware network jwtVerify env req (atTime t w) in
      let (rs, w2) := cfAccessMiddlewareAt network jwtVerify env rest w1 in
      (r :: rs, w2)
  end.

(** ** The Cloudflare Worker proxy

    [src/unnamed/part_001] is the worker that injects the service token,
    [src/cloudflare-worker/worker.js] the one before it. What the platform
    does (URL parsing, header validation, the [Request] and [Response]
    constructors, the upstream fetch) is a parameter; the worker's own
    control flow and header handling are modelled. *)

Module Worker.

(** [env] of the worker: its secrets. *)
Record Env := {
  CLOUD_RUN_URL : option string;
  CF_ACCESS_CLIENT_ID : option string;
  CF_ACCESS_CLIENT_SECRET : option string
}.

(** The properties of a [URL] object the worker reads. *)
Record URL := {
  href : string;
  protocol : string;
  hostname : string;
  pathname : string;
  search : string
}.

(** The incoming [Request]; [headers] is keyed by lower-cased name. *)
Record Request := {
  url : string;
  method : string;
  headers : gmap string string;
  body : option string
}.

(** The arguments of [new Request(targetUrl.toString(), {...})]. *)
Record ProxyRequest := {
  target : string;
  proxyMethod : string;
  proxyHeaders : gmap string string;
  proxyBody : option string;
  redirect : string
}.

(** A [Response], the upstream one or the worker's own. *)
Record Response := {
  responseBody : option string;
  status : Z;
  statusText : string;
  responseHeaders : gmap string string
}.

(** Completions without a world: the worker keeps no state. *)
Definition bindE {A B} (m : completion A) (k : A -> completion B) : completion B :=
  match m with
  | Returned a => k a
  | Thrown e => Thrown e
  end.

Notation "'let?' x ':=' m 'in' k" := (bindE m (fun x => k))
  (at level 10, x name, m at level 100, k at level 200).

(** [s.replace(pattern, replacement)] for a string pattern and a
    replacement without [$] patterns: the first occurrence is replaced. *)
Fixpoint dropChars (n : nat) (s : string) : string :=
  match n, s with
  | O, _ => s
  | S n', String _ s' => dropChars n' s'
  | S _, EmptyString => EmptyString
  end.

Fixpoint replace (s pattern replacement : string) : string :=
  if JsString.startsWith s pattern then
    replacement +:+ dropChars (String.length pattern) s
  else
    match s with
    | EmptyString => EmptyString
    | String c s' => String c (replace s' pattern replacement)
    end.

(** [new Response(text, { status, headers: { 'Content-Type': 'text/plain' } })] *)
Definition textResponse (text : string) (status : Z) : Response :=
  {| responseBody := Some text; status := status; statusText := "";
     responseHeaders := {[ "content-type" := "text/plain" ]} |}.

Section Fetch.

(** [new URL(input)] and [new URL(input, base)]: a URL or a [TypeError]. *)
Variable newURL : string -> option string -> completion URL.

(** What [Headers.prototype.set] does to a value: the normalised value, or
    a [TypeError] for a value the platform refuses. *)
Variable headerValue : string -> completion string.

(** [new Request(...)] followed by [await fetch(...)]. *)
Variable upstream : ProxyRequest -> completion Response.

(** The [Response] constructor refusing its arguments (a status out of
    range, a body with a null-body status), if it does. *)
Variable responseInitError : option string -> Z -> string -> option JsError.

(** [headers.get(name)] *)
Definition headers_get (h : gmap string string) (name : string) : option string :=
  h !! JsString.toLowerCase name.

(** [headers.set(name, value)] for a valid header name *)
Definition headers_set (h : gmap string string) (name value : string)
    : completion (gmap string string) :=
  let? v := headerValue value in
  Returned (<[JsString.toLowerCase name := v]> h).

(** [headers.delete(name)] *)
Definition headers_delete (h : gmap string string) (name : string)
    : gmap string string :=
  delete (JsString.toLowerCase name) h.

(** Lines 43-59 of the later version, 32-48 of the earlier one: the two
    URLs and the forwarding headers. *)
Definition forwardingHeaders (cloudRunUrl : string) (request : Request)
    : completion (URL * gmap string string) :=
  let? url := newURL (url request) None in
  let? targetUrl := newURL (pathname url +:+ search url) (Some cloudRunUrl) in
  let headers0 := headers request in
  let? headers1 := headers_set headers0 "X-Forwarded-Host" (hostname url) in
  let? headers2 :=
    headers_set headers1 "X-Forwarded-Proto" (replace (protocol url) ":" "") in
  let clientIp := headers_get (headers request) "CF-Connecting-IP" in
  let? headers3 :=
    match clientIp with
    | Some ip =>
        if JsString.nonempty ip then headers_set headers2 "X-Real-IP" ip
        else Returned headers2
    | None => Returned headers2
    end in
  Returned (targetUrl, headers3).

(** Lines 61-66 of the later version: the service token, when both
    secrets are set. *)
Definition injectServiceToken (env : Env) (h : gmap string string)
    : completion (gmap string string) :=
  match CF_ACCESS_CLIENT_ID env, CF_ACCESS_CLIENT_SECRET env with
  | Some cfAccessClientId, Some cfAccessClientSecret =>
      if JsString.nonempty cfAccessClientId && JsString.nonempty cfAccessClientSecret
      then
        let? h1 := headers_set h "CF-Access-Client-Id" cfAccessClientId in
        headers_set h1 "CF-Access-Client-Secret" cfAccessClientSecret
      else Returned h
  | _, _ => Returned h
  end.

Definition proxyRequestOf (request : Request) (targetUrl : URL)
    (h : gmap string string) : ProxyRequest :=
  {| target := href targetUrl; proxyMethod := method request;
     proxyHeaders := h; proxyBody := body request; redirect := "manual" |}.

(** Lines 79-90 of the later version, 61-72 of the earlier one: the
    upstream response handed back without the two Cloudflare headers. *)
Definition relay (response : Response) : completion Response :=
  let h0 := responseHeaders response in
  let h1 := headers_delete h0 "cf-ray" in
  let h2 := headers_delete h1 "cf-cache-status" in
  match responseInitError (responseBody response) (status response)
          (statusText response) with
  | Some e => Thrown e
  | None =>
      Returned {| responseBody := responseBody response;
                  status := status response;
                  statusText := statusText response;
                  responseHeaders := h2 |}
  end.

(** The [catch] block. *)
Definition proxyError (error : JsError) : Response :=
  textResponse ("Proxy error: " +:+ message error) 502.

Definition tryCatchE {A} (body : completion A) (handler : JsError -> completion A)
    : completion A :=
  match body with
  | Returned a => Returned a
  | Thrown e => handler e
  end.

(** The request the later version builds (lines 43-74). *)
Definition buildProxyRequest (env : Env) (cloudRunUrl : string)
    (request : Request) : completion ProxyRequest :=
  let? forwarding := forwardingHeaders cloudRunUrl request in
  let? h := injectServiceToken env (snd forwarding) in
  Returned (proxyRequestOf request (fst forwarding) h).

(** [fetch(request, env, ctx)] of [src/unnamed/part_001]. *)
Definition fetch (request : Request) (env : Env) : completion Response :=
  match CLOUD_RUN_URL env with
  | Some cloudRunUrl =>
      if JsString.nonempty cloudRunUrl then
        tryCatchE
          (let? proxyRequest := buildProxyRequest env cloudRunUrl request in
           let? response := upstream proxyRequest in
           relay response)
          (fun error => Returned (proxyError error))
      else
        Returned (textResponse "Worker misconfigured: CLOUD_RUN_URL not set" 500)
  | None =>
      Returned (textResponse "Worker misconfigured: CLOUD_RUN_URL not set" 500)
  end.

(** [fetch(request, env, ctx)] of [src/cloudflare-worker/worker.js]. *)
Definition fetchLegacy (request : Request) (env : Env) : completion Response :=
  match CLOUD_RUN_URL env with
  | Some cloudRunUrl =>
      if JsString.nonempty cloudRunUrl then
        tryCatchE
          (let? forwarding := forwardingHeaders cloudRunUrl request in
           let proxyRequest :=
             proxyRequestOf request (fst forwarding) (snd forwarding) in
           let? response := upstream proxyRequest in
           relay response)
          (fun error => Returned (proxyError error))
      else
        Returned (textResponse "Worker misconfigured: CLOUD_RUN_URL not set" 500)
  | None =>
      Returned (textResponse "Worker misconfigured: CLOUD_RUN_URL not set" 500)
  end.

End Fetch.

(** The names the worker writes in the proxied request, lower-cased. *)
Definition writtenNames : list string :=
  ["x-forwarded-host"; "x-forwarded-proto"; "x-real-ip";
   "cf-access-client-id"; "cf-access-client-secret"].

End Worker.

(** ** Further samples *)

Module Sample2.

(** A configuration whose bypass rules have no wildcard. *)
Definition envPlainRules : Env :=
  {| CF_ACCESS_ENABLED := true;
     CF_ACCESS_TEAM_DOMAIN := Some "team";
     CF_ACCESS_AUD := Some "aud-tag";
     CF_ACCESS_BYPASS_PATHS := Some ["/api/v1/health"; "/api/v1/status"];
     CF_ACCESS_SERVICE_TOKEN_ID := Some "svc-id";
     CF_ACCESS_SERVICE_TOKEN_SECRET := Some "svc-secret";
     LOG_SENSITIVE_INFO := false |}.

(** A 200 body that is JSON and no key set, and a 200 body [null]. *)
Definition errorBody : Json := JObject [("error", JString "not found")].

Definition networkErrorBody : nat -> string -> FetchOutcome :=
  fun _ _ => Resolved {| status := 200; statusText := "OK"; json := inr errorBody |}.

Definition networkNullBody : nat -> string -> FetchOutcome :=
  fun _ _ => Resolved {| status := 200; statusText := "OK"; json := inr JNull |}.

(** A world whose cached key set, fetched at time 1000, is stale at 3601000. *)
Definition staleWorld : World :=
  atTime 3601000 (storeJWKS Sample.jwks 1000 (initialWorld 0)).

End Sample2.

(** ** Sample worker *)

Module WorkerSample.

Definition env : Worker.Env :=
  {| Worker.CLOUD_RUN_URL := Some "https://svc-xyz.a.run.app";
     Worker.CF_ACCESS_CLIENT_ID := Some "svc-id";
     Worker.CF_ACCESS_CLIENT_SECRET := Some "svc-secret" |}.

Definition envWithoutToken : Worker.Env :=
  {| Worker.CLOUD_RUN_URL := Some "https://svc-xyz.a.run.app";
     Worker.CF_ACCESS_CLIENT_ID := None;
     Worker.CF_ACCESS_CLIENT_SECRET := None |}.

Definition envWrongToken : Worker.Env :=
  {| Worker.CLOUD_RUN_URL := Some "https://svc-xyz.a.run.app";
     Worker.CF_ACCESS_CLIENT_ID := Some "svc-id";
     Worker.CF_ACCESS_CLIENT_SECRET := Some "stale-secret" |}.

(** A URL parser that knows the two URLs of the sample. *)
Definition newURL (input : string) (base : option string) : completion Worker.URL :=
  match base with
  | None =>
      if bool_decide (input = "https://aio.example.com/stream/1?x=1") then
        Returned {| Worker.href := input; Worker.protocol := "https:";
                    Worker.hostname := "aio.example.com";
                    Worker.pathname := "/stream/1"; Worker.search := "?x=1" |}
      else Thrown {| message := "Invalid URL" |}
  | Some b =>
      Returned {| Worker.href := b +:+ input; Worker.protocol := "https:";
                  Worker.hostname := "svc-xyz.a.run.app";
                  Worker.pathname := "/stream/1"; Worker.search := "?x=1" |}
  end.

(** Every value is accepted as it is. *)
Definition headerValue (value : string) : completion string := Returned value.

Definition upstreamResponse : Worker.Response :=
  {| Worker.responseBody := Some "{}"; Worker.status := 200;
     Worker.statusText := "OK";
     Worker.responseHeaders :=
       list_to_map [("content-type", "application/json"); ("cf-ray", "8a1b");
                    ("cf-cache-status", "DYNAMIC")] |}.

Definition upstream (_ : Worker.ProxyRequest) : completion Worker.Response :=
  Returned upstreamResponse.

Definition upstreamDown (_ : Worker.ProxyRequest) : completion Worker.Response :=
  Thrown {| message := "connect ECONNREFUSED" |}.

Definition responseInitError (_ : option string) (status : Z) (_ : string)
    : option JsError :=
  if (200 <=? status) && (status <=? 599) then None
  else Some {| message := "status out of range" |}.

(** A client that sends service-token headers of its own, a spoofed
    forwarding header and the address Cloudflare saw. *)
Definition request : Worker.Request :=
  {| Worker.url := "https://aio.example.com/stream/1?x=1";
     Worker.method := "GET";
     Worker.headers :=
       list_to_map [("cf-access-client-id", "forged"); ("cf-access-client-secret", "forged");
                    ("x-forwarded-host", "evil.example"); ("cf-connecting-ip", "203.0.113.50");
                    ("accept", "*/*")];
     Worker.body := None |}.

(** The request the sample worker builds from it. *)
Definition proxied : Worker.ProxyRequest :=
  {| Worker.target := "https://svc-xyz.a.run.app/stream/1?x=1";
     Worker.proxyMethod := "GET";
     Worker.proxyHeaders :=
       list_to_map [("cf-access-client-id", "svc-id");
                    ("cf-access-client-secret", "svc-secret");
                    ("x-forwarded-host", "aio.example.com");
                    ("x-forwarded-proto", "https");
                    ("x-real-ip", "203.0.113.50");
                    ("cf-connecting-ip", "203.0.113.50");
                    ("accept", "*/*")];
     Worker.proxyBody := None;
     Worker.redirect := "manual" |}.

(** The same request as Express hands it to the middleware. *)
Definition gateRequest : Request :=
  {| path := "/stream/1"; headers := Worker.proxyHeaders proxied;
     requestIp := Some "203.0.113.50"; userIp := None;
     cfAccessIdentity := None |}.

(** What the worker with the stale secret builds, and Express's view of it. *)
Definition proxiedWrong : Worker.ProxyRequest :=
  {| Worker.target := "https://svc-xyz.a.run.app/stream/1?x=1";
     Worker.proxyMethod := "GET";
     Worker.proxyHeaders :=
       list_to_map [("cf-access-client-id", "svc-id");
                    ("cf-access-client-secret", "stale-secret");
                    ("x-forwarded-host", "aio.example.com");
                    ("x-forwarded-proto", "https");
                    ("x-real-ip", "203.0.113.50");
                    ("cf-connecting-ip", "203.0.113.50");
                    ("accept", "*/*")];
     Worker.proxyBody := None;
     Worker.redirect := "manual" |}.

Definition gateRequestWrong : Request :=
  {| path := "/stream/1"; headers := Worker.proxyHeaders proxiedWrong;
     requestIp := Some "203.0.113.50"; userIp := None;
     cfAccessIdentity := None |}.

(** What the worker without a token builds: the client's own headers. *)
Definition proxiedWithoutToken : Worker.ProxyRequest :=
  {| Worker.target := "https://svc-xyz.a.run.app/stream/1?x=1";
     Worker.proxyMethod := "GET";
     Worker.proxyHeaders :=
       list_to_map [("cf-access-client-id", "forged");
                    ("cf-access-client-secret", "forged");
                    ("x-forwarded-host", "aio.example.com");
                    ("x-forwarded-proto", "https");
                    ("x-real-ip", "203.0.113.50");
                    ("cf-connecting-ip", "203.0.113.50");
                    ("accept", "*/*")];
     Worker.proxyBody := None;
     Worker.redirect := "manual" |}.

End WorkerSample.


(** * Properties *)

(** ** Strings *)

Lemma startsWith_spec (s p : string) :
  JsString.startsWith s p = true <-> exists rest, s = p +:+ rest.
Proof.
  revert s. induction p as [|c p IH]; intros s; simpl.
  - split; [intros _; by exists s | done].
  - destruct s as [|d s]; simpl.
    + split; [done | intros [rest Hrest]; discriminate].
    + rewrite andb_true_iff, bool_decide_eq_true, IH. split.
      * intros [-> [rest ->]]. by exists rest.
      * intros [rest Hrest]. injection Hrest as -> ->. eauto.
Qed.

Lemma endsWith_star (s : string) :
  JsString.endsWith s "*" = true <-> exists prefix, s = prefix +:+ "*".
Proof.
  induction s as [|c s IH]; simpl.
  - split; [done|].
    intros [[|d prefix] H]; discriminate.
  - rewrite orb_true_iff, bool_decide_eq_true, IH. split.
    + intros [H | [prefix ->]].
      * exists "". by rewrite H.
      * by exists (String c prefix).
    + intros [[|d prefix] H]; simpl in H.
      * by left.
      * injection H as -> ->. right. by exists prefix.
Qed.

Lemma length_app_star (prefix : string) :
  String.length (prefix +:+ "*") = S (String.length prefix).
Proof. induction prefix as [|c p IH]; simpl; [done | by rewrite IH]. Qed.

Lemma substring_app_prefix (prefix rest : string) :
  String.substring 0 (String.length prefix) (prefix +:+ rest) = prefix.
Proof.
  induction prefix as [|c p IH]; simpl.
  - by destruct rest.
  - by rewrite IH.
Qed.

Lemma slice_strip_star (prefix : string) :
  JsString.slice (prefix +:+ "*") 0 (-1) = prefix.
Proof.
  unfold JsString.slice, JsString.clamp. rewrite length_app_star.
  change (0 <? 0) with false. change (-1 <? 0) with true. cbv iota.
  set (n := String.length prefix).
  assert (Z.to_nat (Z.min 0 (Z.of_nat (S n))) = O) as -> by lia.
  assert (Z.to_nat (Z.max (Z.max (Z.of_nat (S n) + -1) 0 - Z.min 0 (Z.of_nat (S n))) 0) = n)
    as -> by lia.
  apply substring_app_prefix.
Qed.

(** ** PathMatcher *)

Lemma bypassPathMatches_spec (path rule : string) :
  bypassPathMatches path rule = true <-> ruleMatches path rule.
Proof.
  unfold bypassPathMatches, ruleMatches. case_bool_decide as Heq.
  { split; [by left | done]. }
  destruct (JsString.endsWith rule "*") eqn:Hends.
  - apply endsWith_star in Hends as [prefix ->].
    rewrite slice_strip_star.
    destruct (JsString.startsWith path prefix) eqn:Hstarts.
    + apply startsWith_spec in Hstarts as [rest ->].
      split; [intros _; right; by exists prefix, rest | done].
    + split; [done|]. intros [? | (prefix' & rest & Hrule & ->)]; [done|].
      assert (prefix' = prefix) as ->.
      { clear -Hrule. revert prefix' Hrule.
        induction prefix as [|c p IH]; intros [|d q] H; simpl in H; try done.
        - injection H as _ H. by destruct q.
        - injection H as _ H. by destruct p.
        - injection H as -> H. f_equal. by apply IH. }
      assert (JsString.startsWith (prefix +:+ rest) prefix = true) as Hyes
        by (apply startsWith_spec; eauto).
      congruence.
  - split; [done|]. intros [? | (prefix & rest & -> & _)]; [done|].
    assert (JsString.endsWith (prefix +:+ "*") "*" = true) as Hyes
      by (apply endsWith_star; eauto).
    congruence.
Qed.

Lemma bypassLoop_spec (path : string) (rules : list string) :
  bypassLoop path rules = true <->
  exists rule, rule ∈ rules /\ ruleMatches path rule.
Proof.
  induction rules as [|rule rules IH]; simpl.
  - split; [done|]. intros (rule & Hin & _). by apply elem_of_nil in Hin.
  - destruct (bypassPathMatches path rule) eqn:Hrule.
    + split; [|done]. intros _. exists rule. split; [left|].
      by apply bypassPathMatches_spec.
    + rewrite IH. split.
      * intros (r & Hin & Hr). exists r. split; [by right | done].
      * intros (r & Hin & Hr). apply elem_of_cons in Hin as [-> | Hin].
        -- apply bypassPathMatches_spec in Hr. congruence.
        -- eauto.
Qed.

(** C5. [shouldBypassAuth] answers [true] exactly when some configured rule
    matches the path, by equality or, for a rule ending in ["*"], by the
    path starting with the rule stripped of that marker. The rule
    ["/health/*"] matches ["/health/"] and ["/health/live"] and does not
    match ["/healthy"]; without rules (the list empty or not configured) no
    path is bypassed. *)
Theorem shouldBypassAuth_iff_some_rule_matches :
  (forall env path,
     shouldBypassAuth env path = true <->
     exists rule, rule ∈ bypassPathsOf env /\ ruleMatches path rule) /\
  (forall env path, shouldBypassAuth env path = bypassLoop path (bypassPathsOf env)) /\
  bypassLoop "/health/" ["/health/*"] = true /\
  bypassLoop "/health/live" ["/health/*"] = true /\
  bypassLoop "/healthy" ["/health/*"] = false /\
  (forall path, bypassLoop path [] = false) /\
  (forall path, shouldBypassAuth Sample.envDisabled path = false).
Proof.
  split; [|split; [|repeat split]]; try done.
  intros env path. apply bypassLoop_spec.
Qed.

(** C6. Reordering the configured bypass rules never changes the answer
    of the path matcher. *)
Theorem shouldBypassAuth_permutation (env env' : Env) (path : string) :
  bypassPathsOf env ≡ₚ bypassPathsOf env' ->
  shouldBypassAuth env path = shouldBypassAuth env' path.
Proof.
  intros Hperm. unfold shouldBypassAuth.
  destruct (bypassLoop path (bypassPathsOf env')) eqn:H'.
  - apply bypassLoop_spec in H' as (rule & Hin & Hrule).
    apply bypassLoop_spec. exists rule. by rewrite Hperm.
  - destruct (bypassLoop path (bypassPathsOf env)) eqn:H; [|done].
    apply bypassLoop_spec in H as (rule & Hin & Hrule).
    rewrite Hperm in Hin.
    assert (bypassLoop path (bypassPathsOf env') = true) as Hyes
      by (apply bypassLoop_spec; eauto).
    congruence.
Qed.

Lemma shouldBypassAuth_permutation_witness :
  bypassPathsOf Sample.env ≡ₚ bypassPathsOf Sample.envReordered /\
  shouldBypassAuth Sample.env "/health/live" =
  shouldBypassAuth Sample.envReordered "/health/live".
Proof.
  assert (bypassPathsOf Sample.env ≡ₚ bypassPathsOf Sample.envReordered) as H
    by apply perm_swap.
  split; [exact H | exact (shouldBypassAuth_permutation _ _ _ H)].
Defined.

(** ** KeySetCache *)

Section Cache.

Variable network : nat -> string -> FetchOutcome.
Variable env : Env.

#[local] Abbreviation getJWKS := (getCloudflareJWKS network env).
#[local] Abbreviation getJWKSAt := (getCloudflareJWKSAt network env).
#[local] Abbreviation url := (certsUrlOf (CF_ACCESS_TEAM_DOMAIN env)).

Lemma getCloudflareJWKS_hit (w : World) :
  cacheFresh w = true ->
  exists jwks, cachedJWKS w = Some jwks /\ getJWKS w = (Returned jwks, w).
Proof.
  unfold cacheFresh, getCloudflareJWKS, bind, Date_now, readCache, ret.
  destruct (cachedJWKS w) as [jwks|]; [|done].
  intros ->. by exists jwks.
Qed.

Lemma getCloudflareJWKS_miss (w : World) :
  cacheFresh w = false ->
  getJWKS w = refreshCloudflareJWKS network env (clock w) w.
Proof.
  unfold cacheFresh, getCloudflareJWKS, bind, Date_now, readCache.
  destruct (cachedJWKS w) as [jwks|]; [|done].
  by intros ->.
Qed.

(** Case analysis on what the network answers: rejection, bad status,
    unparsable body, key set. *)
Ltac fetch_cases :=
  match goal with
  | |- context [network ?n ?u] =>
      let e := fresh "e" in
      let response := fresh "response" in
      destruct (network n u) as [e|response];
      [|destruct (ok response) eqn:?; simpl;
        [destruct (json response) eqn:?|]]
  end.

(** The four ways a refresh ends once the team domain is configured. *)
Lemma refreshCloudflareJWKS_cases (now : Z) (w : World) :
  truthy (CF_ACCESS_TEAM_DOMAIN env) = true ->
  refreshCloudflareJWKS network env now w =
  match network (fetchCount (trace w)) url with
  | Rejected e => (Thrown e, record (Fetched url) w)
  | Resolved response =>
      if negb (ok response) then
        (Thrown {| message :=
                     "Failed to fetch Cloudflare certs: " +:+
                     pretty (status response) +:+ " " +:+ statusText response |},
         record (Fetched url) w)
      else
        match json response with
        | inl e => (Thrown e, record (Fetched url) w)
        | inr jwks => (Returned jwks, storeJWKS jwks now (record (Fetched url) w))
        end
  end.
Proof.
  intros Hdomain. unfold refreshCloudflareJWKS. rewrite Hdomain. simpl.
  unfold tryCatch, bind, fetch.
  destruct (network _ _) as [e|response]; [done|].
  destruct (ok response); simpl; [|done].
  unfold response_json. by destruct (json response).
Qed.

Lemma refresh_failure (now : Z) (w : World) :
  truthy (CF_ACCESS_TEAM_DOMAIN env) = true ->
  fetchFails (network (fetchCount (trace w)) url) = true ->
  exists e, refreshCloudflareJWKS network env now w = (Thrown e, record (Fetched url) w).
Proof.
  intros Hdomain Hfails. rewrite refreshCloudflareJWKS_cases by done.
  destruct (network _ _) as [e|response]; [by eexists|].
  simpl in Hfails. destruct (ok response); simpl in *; [|by eexists].
  destruct (json response); [by eexists | done].
Qed.

Lemma refresh_attempt (now : Z) (w : World) :
  truthy (CF_ACCESS_TEAM_DOMAIN env) = true ->
  trace (snd (refreshCloudflareJWKS network env now w)) = Fetched url :: trace w.
Proof.
  intros Hdomain. rewrite refreshCloudflareJWKS_cases by done.
  by fetch_cases.
Qed.


Lemma cacheFresh_atTime (t : Z) (w : World) (jwks : JSONWebKeySet) :
  cachedJWKS w = Some jwks ->
  cacheFresh (atTime t w) =
  jsonTruthy jwks && bool_decide (t - jwksCacheTime w < JWKS_CACHE_TTL).
Proof.
  intros Hc. unfold cacheFresh. simpl. rewrite Hc. f_equal.
  case_bool_decide; [by apply Z.ltb_lt | by apply Z.ltb_ge; lia].
Qed.


(** Calls made while the entry is stale and the network keeps failing:
    each one throws after one attempt and the cache keeps its content. *)
Lemma getCloudflareJWKSAt_stale_failing (times : list Z) (w : World)
    (old : JSONWebKeySet) :
  truthy (CF_ACCESS_TEAM_DOMAIN env) = true ->
  cachedJWKS w = Some old ->
  Forall (fun t => jwksCacheTime w + JWKS_CACHE_TTL <= t) times ->
  (forall n, fetchFails (network n url) = true) ->
  Forall (fun r => exists e, r = Thrown e) (fst (getJWKSAt times w)) /\
  length (fst (getJWKSAt times w)) = length times /\
  fetchCount (trace (snd (getJWKSAt times w))) =
    (fetchCount (trace w) + length times)%nat /\
  cachedJWKS (snd (getJWKSAt times w)) = Some old /\
  jwksCacheTime (snd (getJWKSAt times w)) = jwksCacheTime w.
Proof.
  intros Hdomain Hc Hall Hdown. revert w Hc Hall.
  induction times as [|t times IH]; intros w Hc Hall; simpl.
  { repeat split; [by constructor | lia | done]. }
  apply Forall_cons in Hall as [Ht Hall].
  rewrite getCloudflareJWKS_miss.
  2:{ rewrite (cacheFresh_atTime _ _ old) by done.
      rewrite bool_decide_eq_false_2 by lia. apply andb_false_r. }
  destruct (refresh_failure (clock (atTime t w)) (atTime t w)) as [e ->];
    [done | apply Hdown |].
  specialize (IH (record (Fetched url) (atTime t w)) Hc Hall).
  destruct (getCloudflareJWKSAt network env times _) as [rs w2].
  simpl in *. destruct IH as (Hrs & Hlen & Hcount & ? & ?).
  unfold fetchCount in *.
  repeat split; [constructor; eauto | lia | lia | done | done].
Qed.

Lemma countEvents_cons_le (p : Event -> bool) (e : Event) (tr : list Event) :
  (countEvents p tr <= countEvents p (e :: tr))%nat.
Proof. simpl. destruct (p e); lia. Qed.

(** Whatever happens, a call records at most the one fetch. *)
Lemma getCloudflareJWKS_trace (w : World) :
  trace (snd (getJWKS w)) = trace w \/
  trace (snd (getJWKS w)) = Fetched url :: trace w.
Proof.
  destruct (cacheFresh w) eqn:Hfresh.
  - destruct (getCloudflareJWKS_hit w Hfresh) as (jwks & _ & ->). by left.
  - rewrite getCloudflareJWKS_miss by done.
    destruct (truthy (CF_ACCESS_TEAM_DOMAIN env)) eqn:Hdomain.
    + right. by apply refresh_attempt.
    + left. unfold refreshCloudflareJWKS. by rewrite Hdomain.
Qed.

(** No call moves the clock. *)
Lemma getCloudflareJWKS_clock (w : World) :
  clock (snd (getJWKS w)) = clock w.
Proof.
  destruct (cacheFresh w) eqn:Hfresh.
  - by destruct (getCloudflareJWKS_hit w Hfresh) as (jwks & _ & ->).
  - rewrite getCloudflareJWKS_miss by done.
    destruct (truthy (CF_ACCESS_TEAM_DOMAIN env)) eqn:Hdomain.
    + rewrite refreshCloudflareJWKS_cases by done. by fetch_cases.
    + unfold refreshCloudflareJWKS. by rewrite Hdomain.
Qed.


(** C4, amended. When the fetch of a call fails (the promise rejects, the
    status is not 2xx, or the body does not parse as JSON), the call throws
    and both cache variables keep their values. A stale entry is never
    handed out in place of a fresh one: a call that finds the entry stale
    makes a fetch attempt, and what it returns, if anything, is the parsed
    body of that response. While the entry is stale and the fetches keep
    failing, every call makes its own attempt and throws. A 2xx body that
    parses as JSON is not a failure for the call, key set or not: it is
    returned and cached as it is, with the time of the call. The team
    domain is set, as for C3. *)
Theorem getCloudflareJWKS_failure_keeps_cache
    (w : World) (old : JSONWebKeySet) (times : list Z) :
  truthy (CF_ACCESS_TEAM_DOMAIN env) = true ->
  (forall w',
     cacheFresh w' = false ->
     fetchFails (network (fetchCount (trace w')) url) = true ->
     exists e,
       getJWKS w' = (Thrown e, record (Fetched url) w') /\
       cachedJWKS (snd (getJWKS w')) = cachedJWKS w' /\
       jwksCacheTime (snd (getJWKS w')) = jwksCacheTime w') /\
  (forall w' stale,
     cachedJWKS w' = Some stale ->
     JWKS_CACHE_TTL <= clock w' - jwksCacheTime w' ->
     trace (snd (getJWKS w')) = Fetched url :: trace w' /\
     forall jwks,
       fst (getJWKS w') = Returned jwks ->
       exists response,
         network (fetchCount (trace w')) url = Resolved response /\
         ok response = true /\ json response = inr jwks) /\
  (cachedJWKS w = Some old ->
   Forall (fun t => jwksCacheTime w + JWKS_CACHE_TTL <= t) times ->
   (forall n, fetchFails (network n url) = true) ->
   Forall (fun r => exists e, r = Thrown e) (fst (getJWKSAt times w)) /\
   length (fst (getJWKSAt times w)) = length times /\
   fetchCount (trace (snd (getJWKSAt times w))) =
     (fetchCount (trace w) + length times)%nat /\
   cachedJWKS (snd (getJWKSAt times w)) = cachedJWKS w /\
   jwksCacheTime (snd (getJWKSAt times w)) = jwksCacheTime w) /\
  (forall w' response body,
     cacheFresh w' = false ->
     network (fetchCount (trace w')) url = Resolved response ->
     ok response = true ->
     json response = inr body ->
     getJWKS w' =
     (Returned body, storeJWKS body (clock w') (record (Fetched url) w'))).
Proof.
  intros Hdomain. split; [|split; [|split]].
  - intros w' Hmiss Hfails. rewrite getCloudflareJWKS_miss by done.
    destruct (refresh_failure (clock w') w') as [e ->]; [done..|].
    by exists e.
  - intros w' stale Hc Hstale.
    assert (cacheFresh w' = false) as Hmiss.
    { unfold cacheFresh. rewrite Hc. apply andb_false_iff. right.
      apply Z.ltb_ge. lia. }
    rewrite getCloudflareJWKS_miss by done. split; [by apply refresh_attempt|].
    intros jwks. rewrite refreshCloudflareJWKS_cases by done.
    destruct (network _ _) as [e|response]; [done|].
    destruct (ok response) eqn:Hok; simpl; [|done].
    destruct (json response) as [e|jwks'] eqn:Hjson; simpl; [done|].
    intros [= ->]. by exists response.
  - intros Hc Hall Hdown. rewrite Hc.
    by apply getCloudflareJWKSAt_stale_failing.
  - intros w' response body Hmiss Hnet Hok Hjson.
    rewrite getCloudflareJWKS_miss, refreshCloudflareJWKS_cases by done.
    by rewrite Hnet, Hok, Hjson.
Qed.

End Cache.

(** ** AuthorizationGate *)

Section GateProperties.

Variable network : nat -> string -> FetchOutcome.
Variable jwtVerify :
  string -> JSONWebKeySet -> string -> string -> Z -> JsError + JWTVerifyResult.
Variable env : Env.

#[local] Abbreviation middleware := (cfAccessMiddleware network jwtVerify env).
#[local] Abbreviation verifyToken := (verifyCloudflareAccessToken network jwtVerify env).
#[local] Abbreviation getJWKS := (getCloudflareJWKS network env).
#[local] Abbreviation url := (certsUrlOf (CF_ACCESS_TEAM_DOMAIN env)).
#[local] Abbreviation issuer := (issuerOf (CF_ACCESS_TEAM_DOMAIN env)).
#[local] Abbreviation audience := (interpolate (CF_ACCESS_AUD env)).

(** The verifier, case by case. *)
Lemma verifyCloudflareAccessToken_cases (token : string) (w : World) :
  verifyToken token w =
  let w1 := record (VerifyCalled token) w in
  if negb (truthy (CF_ACCESS_TEAM_DOMAIN env)) || negb (truthy (CF_ACCESS_AUD env))
  then
    (Thrown {| message :=
                 "CF_ACCESS_TEAM_DOMAIN and CF_ACCESS_AUD must be configured" |},
     w1)
  else
    match getJWKS w1 with
    | (Thrown e, w2) => (Thrown e, w2)
    | (Returned jwks, w2) =>
        match jwtVerify token jwks issuer audience (clock w2) with
        | inl e => (Thrown e, record (JwtVerified token issuer audience) w2)
        | inr result =>
            (Returned result, record (JwtVerified token issuer audience) w2)
        end
    end.
Proof.
  unfold verifyCloudflareAccessToken, bind, modify. simpl.
  destruct (negb _ || negb _); [done|].
  destruct (getCloudflareJWKS _ _ _) as [[jwks|e] w2]; [|done].
  unfold jose_jwtVerify. by destruct (jwtVerify _ _ _ _ _).
Qed.

(** The verifier never reaches its [getCloudflareJWKS] call without a team
    domain: the key set is only ever asked for with the domain configured. *)
Lemma verifyCloudflareAccessToken_guards_key_set (token : string) (w : World) :
  truthy (CF_ACCESS_TEAM_DOMAIN env) = false ->
  verifyToken token w =
  (Thrown {| message :=
               "CF_ACCESS_TEAM_DOMAIN and CF_ACCESS_AUD must be configured" |},
   record (VerifyCalled token) w).
Proof.
  intros Hdomain. rewrite verifyCloudflareAccessToken_cases. cbv zeta.
  by rewrite Hdomain.
Qed.

(** The JWT branch, case by case. *)
Lemma jwtAuthentication_cases (req : Request) (w : World) :
  jwtAuthentication network jwtVerify env req w =
  let w1 := record (HeaderRead "CF-Access-JWT-Assertion") w in
  if truthy (header req "CF-Access-JWT-Assertion") then
    match verifyToken (interpolate (header req "CF-Access-JWT-Assertion")) w1 with
    | (Returned result, w2) =>
        (Returned (Next, setIdentity (identityOfClaims (payload result)) req), w2)
    | (Thrown _, w2) => (Returned (invalidAssertion, req), w2)
    end
  else (Returned (missingCredentials, req), w1).
Proof.
  unfold jwtAuthentication, bind, req_get, tryCatch, ret.
  destruct (header req "CF-Access-JWT-Assertion") as [token|]; simpl; [|done].
  destruct (JsString.nonempty token); [|done].
  by destruct (verifyCloudflareAccessToken _ _ _ _ _) as [[result|e] w2].
Qed.

(** The middleware, state by state. *)
Lemma cfAccessMiddleware_cases (req : Request) (w : World) :
  middleware req w =
  match gateState env req with
  | Disabled => (Returned (Next, req), w)
  | Bypassed => (Returned (Next, req), record (PathMatched (path req)) w)
  | CheckingServiceToken =>
      if validateServiceToken env (header req "CF-Access-Client-Id")
           (header req "CF-Access-Client-Secret")
      then
        (Returned
           (Next,
            setIdentity
              (ServiceTokenIdentity (interpolate (header req "CF-Access-Client-Id")))
              req),
         afterCredentialRead req w)
      else (Returned (invalidServiceToken, req), afterCredentialRead req w)
  | CheckingAssertion =>
      jwtAuthentication network jwtVerify env req (afterCredentialRead req w)
  end.
Proof.
  unfold cfAccessMiddleware, gateState, serviceTokenPresented.
  destruct (CF_ACCESS_ENABLED env); [|done]. simpl.
  unfold bind, callShouldBypassAuth, req_get, ret.
  destruct (shouldBypassAuth env (path req)); [done|].
  destruct (header req "CF-Access-Client-Id") as [clientId|];
    destruct (header req "CF-Access-Client-Secret") as [clientSecret|];
    simpl; try done.
  - destruct (JsString.nonempty clientId && JsString.nonempty clientSecret); [|done].
    by destruct (validateServiceToken _ _ _).
  - by rewrite andb_false_r.
Qed.

(** What makes [validateServiceToken] answer [false]. *)
Lemma validateServiceToken_false (clientId clientSecret : option string) :
  validateServiceToken env clientId clientSecret = false <->
  truthy (CF_ACCESS_SERVICE_TOKEN_ID env) = false \/
  truthy (CF_ACCESS_SERVICE_TOKEN_SECRET env) = false \/
  clientId <> CF_ACCESS_SERVICE_TOKEN_ID env \/
  clientSecret <> CF_ACCESS_SERVICE_TOKEN_SECRET env.
Proof.
  unfold validateServiceToken.
  destruct (truthy (CF_ACCESS_SERVICE_TOKEN_ID env));
    destruct (truthy (CF_ACCESS_SERVICE_TOKEN_SECRET env)); simpl;
    try (split; [auto | done]).
  rewrite andb_false_iff, !bool_decide_eq_false. intuition discriminate.
Qed.

(** The service-token checks record no call of the assertion branch. *)
Lemma afterCredentialRead_no_assertion_event (req : Request) (w : World) :
  countEvents isAssertionEvent (trace (afterCredentialRead req w)) =
  countEvents isAssertionEvent (trace w).
Proof. done. Qed.

Lemma gateState_spec (req : Request) :
  match gateState env req with
  | Disabled => CF_ACCESS_ENABLED env = false
  | Bypassed =>
      CF_ACCESS_ENABLED env = true /\ shouldBypassAuth env (path req) = true
  | CheckingServiceToken =>
      CF_ACCESS_ENABLED env = true /\ shouldBypassAuth env (path req) = false /\
      serviceTokenPresented req = true
  | CheckingAssertion =>
      CF_ACCESS_ENABLED env = true /\ shouldBypassAuth env (path req) = false /\
      serviceTokenPresented req = false
  end.
Proof.
  unfold gateState. destruct (CF_ACCESS_ENABLED env); simpl; [|done].
  destruct (shouldBypassAuth _ _); [done|].
  by destruct (serviceTokenPresented req).
Qed.

Lemma gateState_CheckingServiceToken (req : Request) :
  CF_ACCESS_ENABLED env = true ->
  shouldBypassAuth env (path req) = false ->
  serviceTokenPresented req = true ->
  gateState env req = CheckingServiceToken.
Proof. unfold gateState. by intros -> -> ->. Qed.

Lemma gateState_CheckingAssertion (req : Request) :
  CF_ACCESS_ENABLED env = true ->
  shouldBypassAuth env (path req) = false ->
  serviceTokenPresented req = false ->
  gateState env req = CheckingAssertion.
Proof. unfold gateState. by intros -> -> ->. Qed.

Lemma truthy_Some (v : option string) :
  truthy v = true -> exists s, v = Some s /\ JsString.nonempty s = true.
Proof. destruct v as [s|]; [|done]. intros H. by exists s. Qed.

(** The verifier only adds to the trace. *)
Lemma verifyCloudflareAccessToken_trace (token : string) (w : World) :
  (countEvents isAssertionEvent (trace w) <
   countEvents isAssertionEvent (trace (snd (verifyToken token w))))%nat.
Proof.
  rewrite verifyCloudflareAccessToken_cases. cbv zeta.
  set (w1 := record (VerifyCalled token) w).
  assert (countEvents isAssertionEvent (trace w1) =
          S (countEvents isAssertionEvent (trace w))) as Hw1 by done.
  assert (countEvents isAssertionEvent (trace w1) <=
          countEvents isAssertionEvent (trace (snd (getJWKS w1))))%nat as Hk.
  { destruct (getCloudflareJWKS_trace network env w1) as [-> | ->];
      [done | apply countEvents_cons_le]. }
  destruct (negb _ || negb _); [simpl; lia|].
  destruct (getJWKS w1) as [[jwks|e] w2]; simpl in *; [|lia].
  destruct (jwtVerify _ _ _ _ _); simpl; lia.
Qed.

(** The JWT branch always reads the assertion header. *)
Lemma jwtAuthentication_assertion_events (req : Request) (w : World) :
  (countEvents isAssertionEvent (trace w) <
   countEvents isAssertionEvent
     (trace (snd (jwtAuthentication network jwtVerify env req w))))%nat.
Proof.
  rewrite jwtAuthentication_cases. cbv zeta.
  set (w1 := record (HeaderRead "CF-Access-JWT-Assertion") w).
  assert (countEvents isAssertionEvent (trace w1) =
          S (countEvents isAssertionEvent (trace w))) as Hw1 by done.
  destruct (truthy _); [|simpl; lia].
  pose proof (verifyCloudflareAccessToken_trace
                (interpolate (header req "CF-Access-JWT-Assertion")) w1) as Hv.
  destruct (verifyToken _ w1) as [[result|e] w2]; simpl in *; lia.
Qed.

(** C7. With [CF_ACCESS_ENABLED] false the middleware calls [next()] for
    every request, whatever its path and headers; the request is left as it
    came (no identity is attached) and the world is untouched: no path
    matching, no header read, no verification. *)
Theorem cfAccessMiddleware_disabled (req : Request) (w : World) :
  CF_ACCESS_ENABLED env = false ->
  middleware req w = (Returned (Next, req), w).
Proof. intros Hoff. unfold cfAccessMiddleware. by rewrite Hoff. Qed.

(** C1, amended. For a request that reaches the credential checks (the gate
    is enabled and the path is not bypassed) and carries both service-token
    headers with non-empty values: when the pair differs from the two
    configured values, or one of the configured values is absent, the
    middleware answers 403 "Invalid service token credentials." and makes no
    call of the assertion branch (no read of the assertion header, no
    verifier, no fetch), whatever assertion the request carries. *)
Theorem service_token_mismatch_denied (req : Request) (w : World) :
  CF_ACCESS_ENABLED env = true ->
  shouldBypassAuth env (path req) = false ->
  serviceTokenPresented req = true ->
  (truthy (CF_ACCESS_SERVICE_TOKEN_ID env) = false \/
   truthy (CF_ACCESS_SERVICE_TOKEN_SECRET env) = false \/
   header req "CF-Access-Client-Id" <> CF_ACCESS_SERVICE_TOKEN_ID env \/
   header req "CF-Access-Client-Secret" <> CF_ACCESS_SERVICE_TOKEN_SECRET env) ->
  middleware req w = (Returned (invalidServiceToken, req), afterCredentialRead req w) /\
  invalidServiceToken =
    Responded 403 {| success := false; error := "Access denied";
                     detail := "Invalid service token credentials." |} /\
  countEvents isAssertionEvent (trace (snd (middleware req w))) =
    countEvents isAssertionEvent (trace w).
Proof.
  intros Hon Hpath Hboth Hbad.
  apply validateServiceToken_false in Hbad.
  rewrite cfAccessMiddleware_cases, gateState_CheckingServiceToken, Hbad by done.
  done.
Qed.

(** C2, amended. The assertion branch is entered exactly when the gate is
    enabled, the path is not bypassed, and the request does not carry both
    service-token headers with non-empty values. A request that carries
    both never has its assertion header read nor the verifier called. *)
Theorem assertion_branch_only_without_service_token (req : Request) (w : World) :
  (serviceTokenPresented req = true ->
   countEvents isAssertionEvent (trace (snd (middleware req w))) =
     countEvents isAssertionEvent (trace w)) /\
  (countEvents isAssertionEvent (trace (snd (middleware req w))) <>
     countEvents isAssertionEvent (trace w) <->
   CF_ACCESS_ENABLED env = true /\ shouldBypassAuth env (path req) = false /\
   serviceTokenPresented req = false).
Proof.
  rewrite cfAccessMiddleware_cases.
  pose proof (gateState_spec req) as Hstate.
  pose proof (jwtAuthentication_assertion_events req (afterCredentialRead req w))
    as Hjwt.
  rewrite afterCredentialRead_no_assertion_event in Hjwt.
  destruct (gateState env req).
  - split; [done|]. split; [done|]. intros (? & _). congruence.
  - destruct Hstate as [_ Hyes]. split; [done|]. split; [done|].
    intros (_ & ? & _). congruence.
  - destruct Hstate as (_ & _ & Hboth).
    assert (countEvents isAssertionEvent
              (trace (snd (if validateServiceToken env
                                (header req "CF-Access-Client-Id")
                                (header req "CF-Access-Client-Secret")
                           then (Returned
                                   (Next,
                                    setIdentity
                                      (ServiceTokenIdentity
                                         (interpolate (header req "CF-Access-Client-Id")))
                                      req),
                                 afterCredentialRead req w)
                           else (Returned (invalidServiceToken, req),
                                 afterCredentialRead req w)))) =
            countEvents isAssertionEvent (trace w)) as ->
      by (by destruct (validateServiceToken _ _ _)).
    split; [done|]. split; [done|]. intros (_ & _ & ?). congruence.
  - destruct Hstate as (? & ? & Hnot). split; [congruence|].
    split; [done|]. intros _. lia.
Qed.

(** C8. On the assertion path (gate enabled, path not bypassed, no service
    token presented, an assertion header with a value), every failure ends
    in 403 with [success: false] and nothing attached to the request: the
    team domain or the audience not configured, the key fetch failing, the
    key set call throwing for any reason, or [jose.jwtVerify] rejecting the
    token (signature, issuer, audience, expiry). Conversely, [next()] is
    only called when none of these happened. *)
Theorem assertion_path_fails_closed (req : Request) (w : World) (token : string) :
  CF_ACCESS_ENABLED env = true ->
  shouldBypassAuth env (path req) = false ->
  serviceTokenPresented req = false ->
  header req "CF-Access-JWT-Assertion" = Some token ->
  JsString.nonempty token = true ->
  let w1 := record (VerifyCalled token) (afterAssertionRead req w) in
  let failure :=
    truthy (CF_ACCESS_TEAM_DOMAIN env) = false \/
    truthy (CF_ACCESS_AUD env) = false \/
    (cacheFresh w = false /\
     fetchFails (network (fetchCount (trace w)) url) = true) \/
    (exists e, fst (getJWKS w1) = Thrown e) \/
    (exists jwks e,
       fst (getJWKS w1) = Returned jwks /\
       jwtVerify token jwks issuer audience (clock w) = inl e) in
  (failure ->
   exists w', middleware req w = (Returned (invalidAssertion, req), w')) /\
  (forall req' w', middleware req w = (Returned (Next, req'), w') -> ~ failure) /\
  invalidAssertion =
    Responded 403 {| success := false; error := "Access denied";
                     detail := "Invalid or expired Cloudflare Access token." |}.
Proof.
  intros Hon Hpath Hnone Hheader Htoken w1 failure.
  rewrite cfAccessMiddleware_cases, gateState_CheckingAssertion by done.
  rewrite jwtAuthentication_cases. cbv zeta. rewrite Hheader. simpl truthy.
  rewrite Htoken. simpl interpolate.
  rewrite verifyCloudflareAccessToken_cases. cbv zeta.
  fold (afterAssertionRead req w). fold w1.
  assert (clock (snd (getJWKS w1)) = clock w) as Hclock
    by (by rewrite getCloudflareJWKS_clock).
  assert (cacheFresh w = false ->
          fetchFails (network (fetchCount (trace w)) url) = true ->
          truthy (CF_ACCESS_TEAM_DOMAIN env) = true ->
          exists e, fst (getJWKS w1) = Thrown e) as Hfetch.
  { intros Hmiss Hfails Hdomain.
    rewrite getCloudflareJWKS_miss by done.
    destruct (refresh_failure network env (clock w1) w1) as [e ->];
      [done | done | by exists e]. }
  destruct (truthy (CF_ACCESS_TEAM_DOMAIN env)) eqn:Hdomain; simpl.
  2:{ split; [by eexists|]. split; [done|done]. }
  destruct (truthy (CF_ACCESS_AUD env)) eqn:Haud; simpl.
  2:{ split; [by eexists|]. split; [done|done]. }
  destruct (getJWKS w1) as [[jwks|e] w2] eqn:Hkeys; simpl in *.
  - destruct (jwtVerify token jwks issuer audience (clock w2)) as [e|result] eqn:Hv.
    + split; [by eexists|]. split; [done|done].
    + split; [|split; [|done]].
      * intros [? | [? | [[Hmiss Hfails] | [[e ?] | (jwks' & e & Hj & Hbad)]]]];
          try done.
        -- destruct (Hfetch Hmiss Hfails eq_refl) as [e ?]. done.
        -- injection Hj as <-. rewrite <- Hclock in Hbad. congruence.
      * intros req' w' _.
        intros [? | [? | [[Hmiss Hfails] | [[e ?] | (jwks' & e & Hj & Hbad)]]]];
          try done.
        -- destruct (Hfetch Hmiss Hfails eq_refl) as [e ?]. done.
        -- injection Hj as <-. rewrite <- Hclock in Hbad. congruence.
  - split; [by eexists|]. split; [done|done].
Qed.

(** The middleware always settles, and leaves the request as it came or
    with one identity attached. *)
Lemma cfAccessMiddleware_returns (req : Request) (w : World) :
  exists handled annotation w',
    middleware req w = (Returned (handled, annotate annotation req), w') /\
    (is_Some annotation ->
     handled = Next /\
     (gateState env req = CheckingServiceToken \/
      gateState env req = CheckingAssertion)).
Proof.
  rewrite cfAccessMiddleware_cases.
  destruct (gateState env req) eqn:Hstate.
  - exists Next, None, w. split; [done|]. by intros [? ?].
  - exists Next, None, (record (PathMatched (path req)) w).
    split; [done|]. by intros [? ?].
  - destruct (validateServiceToken _ _ _).
    + eexists Next, (Some _), _. split; [done|]. auto.
    + eexists _, None, _. split; [done|]. by intros [? ?].
  - rewrite jwtAuthentication_cases. cbv zeta.
    destruct (truthy _).
    + destruct (verifyToken _ _) as [[result|e] w2].
      * eexists Next, (Some _), _. split; [done|]. auto.
      * eexists _, None, _. split; [done|]. by intros [? ?].
    + eexists _, None, _. split; [done|]. by intros [? ?].
Qed.

(** C9. For a request that arrives without an identity: after the
    middleware an identity is attached if and only if the request was
    admitted by one of the two credentialed states. The service-token
    admission attaches the service-token identity with the client id of the
    header, the assertion admission attaches the JWT identity with the
    email, sub, iat and exp claims of the verified payload. The disabled and
    the bypassed admission, and every denial, leave the request unchanged. *)
Theorem identity_attached_iff_credentialed_admission (req : Request) (w : World) :
  cfAccessIdentity req = None ->
  exists handled req' w',
    middleware req w = (Returned (handled, req'), w') /\
    (is_Some (cfAccessIdentity req') <->
     handled = Next /\
     (gateState env req = CheckingServiceToken \/
      gateState env req = CheckingAssertion)) /\
    (gateState env req = CheckingServiceToken -> handled = Next ->
     exists clientId,
       header req "CF-Access-Client-Id" = Some clientId /\
       req' = setIdentity (ServiceTokenIdentity clientId) req) /\
    (gateState env req = CheckingAssertion -> handled = Next ->
     exists token result,
       header req "CF-Access-JWT-Assertion" = Some token /\
       fst (verifyToken token (afterAssertionRead req w)) = Returned result /\
       req' = setIdentity
                (JwtIdentity (email (payload result)) (sub (payload result))
                   (iat (payload result)) (exp (payload result)))
                req) /\
    (gateState env req = Disabled \/ gateState env req = Bypassed ->
     handled = Next /\ req' = req) /\
    (handled <> Next -> req' = req).
Proof.
  intros Hfresh. rewrite cfAccessMiddleware_cases.
  pose proof (gateState_spec req) as Hspec.
  destruct (gateState env req) eqn:Hstate.
  - exists Next, req, w. rewrite Hfresh.
    repeat split; try done; try (by intros [? ?]); intuition congruence.
  - eexists Next, req, _. rewrite Hfresh.
    repeat split; try done; try (by intros [? ?]); intuition congruence.
  - destruct Hspec as (_ & _ & Hboth).
    apply andb_true_iff in Hboth as [Hid _].
    apply truthy_Some in Hid as (clientId & Hid & _). rewrite Hid. simpl.
    destruct (validateServiceToken _ _ _).
    + eexists Next, _, _. split; [done|]. simpl.
      repeat split; try done; eauto; intuition congruence.
    + eexists invalidServiceToken, req, _. rewrite Hfresh.
      repeat split; try done; try (by intros [? ?]); intuition congruence.
  - rewrite jwtAuthentication_cases. cbv zeta.
    destruct (truthy (header req "CF-Access-JWT-Assertion")) eqn:Hjwt.
    + apply truthy_Some in Hjwt as (token & Hjwt & _). rewrite Hjwt. simpl.
      fold (afterAssertionRead req w).
      destruct (verifyToken token (afterAssertionRead req w))
        as [[result|e] w2] eqn:Hverify.
      * eexists Next, _, _. split; [done|]. simpl.
        repeat split; try done; eauto; try (intuition congruence).
        intros _ _. exists token, result. by rewrite Hverify.
      * eexists invalidAssertion, req, _. rewrite Hfresh.
        repeat split; try done; try (by intros [? ?]); intuition congruence.
    + eexists missingCredentials, req, _. rewrite Hfresh.
      repeat split; try done; try (by intros [? ?]); intuition congruence.
Qed.

(** C10. Two requests with the same path and the same values of the three
    credential headers get, in the same world and under the same
    configuration, the same outcome, the same annotation and the same
    effect on the world, whatever else differs between them. *)
Theorem decision_depends_on_path_and_credentials (req1 req2 : Request) (w : World) :
  path req1 = path req2 ->
  header req1 "CF-Access-Client-Id" = header req2 "CF-Access-Client-Id" ->
  header req1 "CF-Access-Client-Secret" = header req2 "CF-Access-Client-Secret" ->
  header req1 "CF-Access-JWT-Assertion" = header req2 "CF-Access-JWT-Assertion" ->
  exists handled annotation w',
    middleware req1 w = (Returned (handled, annotate annotation req1), w') /\
    middleware req2 w = (Returned (handled, annotate annotation req2), w').
Proof.
  intros Hpath Hid Hsecret Hjwt.
  rewrite !cfAccessMiddleware_cases.
  assert (gateState env req1 = gateState env req2) as Hstate
    by (unfold gateState, serviceTokenPresented; by rewrite Hpath, Hid, Hsecret).
  assert (afterCredentialRead req1 w = afterCredentialRead req2 w) as Hworld
    by (unfold afterCredentialRead; by rewrite Hpath).
  rewrite Hstate, Hworld, Hid, Hsecret, Hpath.
  destruct (gateState env req2).
  - by exists Next, None, w.
  - by eexists Next, None, _.
  - destruct (validateServiceToken _ _ _).
    + by eexists Next, (Some _), _.
    + by eexists _, None, _.
  - rewrite !jwtAuthentication_cases. cbv zeta. rewrite Hjwt.
    destruct (truthy _).
    + destruct (verifyToken _ _) as [[result|e] w2].
      * by eexists Next, (Some _), _.
      * by eexists _, None, _.
    + by eexists _, None, _.
Qed.

End GateProperties.

(** ** The theorems at the sample inputs *)

Lemma cfAccessMiddleware_disabled_witness :
  CF_ACCESS_ENABLED Sample.envDisabled = false /\
  cfAccessMiddleware Sample.networkUp Sample.verifier Sample.envDisabled
    Sample.wrongSecret (initialWorld 1000) =
  (Returned (Next, Sample.wrongSecret), initialWorld 1000).
Proof.
  split; [reflexivity|].
  apply (cfAccessMiddleware_disabled Sample.networkUp Sample.verifier
           Sample.envDisabled Sample.wrongSecret (initialWorld 1000)).
  reflexivity.
Defined.

Lemma service_token_mismatch_denied_witness :
  serviceTokenPresented Sample.wrongSecret = true /\
  cfAccessMiddleware Sample.networkUp Sample.verifier Sample.env
    Sample.wrongSecret (initialWorld 1000) =
  (Returned (invalidServiceToken, Sample.wrongSecret),
   afterCredentialRead Sample.wrongSecret (initialWorld 1000)).
Proof.
  split; [vm_compute; reflexivity|].
  apply (service_token_mismatch_denied Sample.networkUp Sample.verifier
           Sample.env Sample.wrongSecret (initialWorld 1000));
    try (vm_compute; reflexivity).
  right. right. right. vm_compute. discriminate.
Defined.

(** C1 as stated fails on three requests that carry both service-token
    headers with a pair that does not match: one whose client-id header is
    present with an empty value (the middleware goes on to the assertion
    and admits), one sent to a disabled gate, one sent to a bypassed path. *)
Lemma service_token_headers_without_denial :
  (CF_ACCESS_ENABLED Sample.env = true /\
   shouldBypassAuth Sample.env (path Sample.emptyClientId) = false /\
   header Sample.emptyClientId "CF-Access-Client-Id" = Some "" /\
   header Sample.emptyClientId "CF-Access-Client-Secret" = Some "nope" /\
   validateServiceToken Sample.env (Some "") (Some "nope") = false /\
   fst (cfAccessMiddleware Sample.networkUp Sample.verifier Sample.env
          Sample.emptyClientId (initialWorld 1000)) =
     Returned (Next,
               setIdentity (identityOfClaims Sample.claims) Sample.emptyClientId) /\
   countEvents isJwtVerified
     (trace (snd (cfAccessMiddleware Sample.networkUp Sample.verifier Sample.env
                    Sample.emptyClientId (initialWorld 1000)))) = 1%nat) /\
  (header Sample.wrongSecret "CF-Access-Client-Id" = Some "svc-id" /\
   header Sample.wrongSecret "CF-Access-Client-Secret" = Some "nope" /\
   validateServiceToken Sample.envDisabled (Some "svc-id") (Some "nope") = false /\
   fst (cfAccessMiddleware Sample.networkUp Sample.verifier Sample.envDisabled
          Sample.wrongSecret (initialWorld 1000)) =
     Returned (Next, Sample.wrongSecret)) /\
  (header Sample.wrongSecretOnHealth "CF-Access-Client-Id" = Some "svc-id" /\
   header Sample.wrongSecretOnHealth "CF-Access-Client-Secret" = Some "nope" /\
   validateServiceToken Sample.env (Some "svc-id") (Some "nope") = false /\
   fst (cfAccessMiddleware Sample.networkUp Sample.verifier Sample.env
          Sample.wrongSecretOnHealth (initialWorld 1000)) =
     Returned (Next, Sample.wrongSecretOnHealth)).
Proof. repeat split; vm_compute; reflexivity. Qed.

Lemma assertion_branch_only_without_service_token_witness :
  serviceTokenPresented Sample.goodServiceToken = true /\
  countEvents isAssertionEvent
    (trace (snd (cfAccessMiddleware Sample.networkUp Sample.verifier Sample.env
                   Sample.goodServiceToken (initialWorld 1000)))) =
  countEvents isAssertionEvent (trace (initialWorld 1000)).
Proof.
  split; [vm_compute; reflexivity|].
  apply (assertion_branch_only_without_service_token Sample.networkUp
           Sample.verifier Sample.env Sample.goodServiceToken (initialWorld 1000)).
  vm_compute; reflexivity.
Defined.

(** C2 as stated fails on a request that carries a client-id header (and no
    client-secret header) next to an assertion: the middleware reads the
    assertion header, calls the verifier and admits on the assertion. *)
Lemma lone_client_id_reaches_assertion_branch :
  CF_ACCESS_ENABLED Sample.env = true /\
  shouldBypassAuth Sample.env (path Sample.loneClientId) = false /\
  header Sample.loneClientId "CF-Access-Client-Id" = Some "svc-id" /\
  header Sample.loneClientId "CF-Access-Client-Secret" = None /\
  fst (cfAccessMiddleware Sample.networkUp Sample.verifier Sample.env
         Sample.loneClientId (initialWorld 1000)) =
    Returned (Next,
              setIdentity (identityOfClaims Sample.claims) Sample.loneClientId) /\
  trace (snd (cfAccessMiddleware Sample.networkUp Sample.verifier Sample.env
                Sample.loneClientId (initialWorld 1000))) =
    [JwtVerified "valid.jwt" "https://team.cloudflareaccess.com" "aud-tag";
     Fetched "https://team.cloudflareaccess.com/cdn-cgi/access/certs";
     VerifyCalled "valid.jwt";
     HeaderRead "CF-Access-JWT-Assertion";
     HeaderRead "CF-Access-Client-Secret";
     HeaderRead "CF-Access-Client-Id";
     PathMatched "/secure"].
Proof. repeat split; vm_compute; reflexivity. Qed.


Lemma getCloudflareJWKS_failure_keeps_cache_witness :
  let w := storeJWKS Sample.jwks 1000 (initialWorld 0) in
  truthy (CF_ACCESS_TEAM_DOMAIN Sample.env) = true /\
  Forall (fun t => jwksCacheTime w + JWKS_CACHE_TTL <= t) [3601000; 3601001] /\
  Forall (fun r => exists e, r = Thrown e)
    (fst (getCloudflareJWKSAt Sample.networkDown Sample.env
            [3601000; 3601001] w)) /\
  fetchCount (trace (snd (getCloudflareJWKSAt Sample.networkDown Sample.env
                            [3601000; 3601001] w))) = 2%nat /\
  cachedJWKS (snd (getCloudflareJWKSAt Sample.networkDown Sample.env
                     [3601000; 3601001] w)) = Some Sample.jwks.
Proof.
  set (w := storeJWKS Sample.jwks 1000 (initialWorld 0)).
  assert (Forall (fun t => jwksCacheTime w + JWKS_CACHE_TTL <= t)
            [3601000; 3601001]) as Htimes
    by (repeat constructor; vm_compute; discriminate).
  destruct (getCloudflareJWKS_failure_keeps_cache Sample.networkDown Sample.env
              w Sample.jwks [3601000; 3601001] eq_refl) as (_ & _ & Hseq & _).
  destruct (Hseq eq_refl Htimes (fun n => eq_refl))
    as (Hrs & _ & Hcount & Hcache & _).
  exact (conj eq_refl (conj Htimes (conj Hrs (conj Hcount Hcache)))).
Defined.

(** C4 as stated fails on a response that is delivered with a 2xx status
    and a body that parses as JSON but is no key set. The cache holds a key
    set fetched at time 1000 and the call is made after the TTL. With the
    body [{"error": "not found"}] the call does not throw: it returns that
    object and overwrites the cached key set with it, stamped with the time
    of the call, so the next call within the hour hands it out from the
    cache with no fetch. With the body [null] the call returns [null] and
    clears the cache. Neither is counted as a failure of the fetch. *)
Lemma non_key_set_body_overwrites_cache :
  truthy (CF_ACCESS_TEAM_DOMAIN Sample.env) = true /\
  cachedJWKS Sample2.staleWorld = Some Sample.jwks /\
  jwksCacheTime Sample2.staleWorld = 1000 /\
  clock Sample2.staleWorld = 3601000 /\
  cacheFresh Sample2.staleWorld = false /\
  fetchFails (Sample2.networkErrorBody O
                "https://team.cloudflareaccess.com/cdn-cgi/access/certs") = false /\
  fetchFails (Sample2.networkNullBody O
                "https://team.cloudflareaccess.com/cdn-cgi/access/certs") = false /\
  (let r := getCloudflareJWKS Sample2.networkErrorBody Sample.env
              Sample2.staleWorld in
   fst r = Returned Sample2.errorBody /\
   cachedJWKS (snd r) = Some Sample2.errorBody /\
   jwksCacheTime (snd r) = 3601000 /\
   fetchCount (trace (snd r)) = 1%nat /\
   getCloudflareJWKS Sample2.networkErrorBody Sample.env (atTime 3602000 (snd r)) =
     (Returned Sample2.errorBody, atTime 3602000 (snd r))) /\
  (let r := getCloudflareJWKS Sample2.networkNullBody Sample.env
              Sample2.staleWorld in
   fst r = Returned JNull /\
   cachedJWKS (snd r) = Some JNull /\
   jsonTruthy JNull = false /\
   jwksCacheTime (snd r) = 3601000 /\
   cacheFresh (snd r) = false).
Proof. repeat split; vm_compute; reflexivity. Qed.

Lemma assertion_path_fails_closed_witness :
  fetchFails (Sample.networkDown O "") = true /\
  exists w',
    cfAccessMiddleware Sample.networkDown Sample.verifier Sample.env
      Sample.goodAssertion (initialWorld 1000) =
    (Returned (invalidAssertion, Sample.goodAssertion), w').
Proof.
  split; [reflexivity|].
  apply (assertion_path_fails_closed Sample.networkDown Sample.verifier
           Sample.env Sample.goodAssertion (initialWorld 1000) "valid.jwt");
    try (vm_compute; reflexivity).
  right. right. left. split; reflexivity.
Defined.

Lemma identity_attached_iff_credentialed_admission_witness :
  cfAccessIdentity Sample.goodAssertion = None /\
  exists handled req' w',
    cfAccessMiddleware Sample.networkUp Sample.verifier Sample.env
      Sample.goodAssertion (initialWorld 1000) = (Returned (handled, req'), w') /\
    (is_Some (cfAccessIdentity req') <->
     handled = Next /\
     (gateState Sample.env Sample.goodAssertion = CheckingServiceToken \/
      gateState Sample.env Sample.goodAssertion = CheckingAssertion)).
Proof.
  split; [reflexivity|].
  destruct (identity_attached_iff_credentialed_admission Sample.networkUp
              Sample.verifier Sample.env Sample.goodAssertion (initialWorld 1000)
              eq_refl) as (handled & req' & w' & Hrun & Hiff & _).
  exists handled, req', w'. split; [exact Hrun | exact Hiff].
Defined.

Lemma decision_depends_on_path_and_credentials_witness :
  Sample.goodAssertion <> Sample.goodAssertionFromElsewhere /\
  exists handled annotation w',
    cfAccessMiddleware Sample.networkUp Sample.verifier Sample.env
      Sample.goodAssertion (initialWorld 1000) =
      (Returned (handled, annotate annotation Sample.goodAssertion), w') /\
    cfAccessMiddleware Sample.networkUp Sample.verifier Sample.env
      Sample.goodAssertionFromElsewhere (initialWorld 1000) =
      (Returned (handled, annotate annotation Sample.goodAssertionFromElsewhere), w').
Proof.
  split; [intros H; apply (f_equal requestIp) in H; discriminate|].
  apply (decision_depends_on_path_and_credentials Sample.networkUp
           Sample.verifier Sample.env Sample.goodAssertion
           Sample.goodAssertionFromElsewhere (initialWorld 1000));
    vm_compute; reflexivity.
Defined.

(** ** Worked examples *)

Example health_check_is_bypassed :
  cfAccessMiddleware Sample.networkUp Sample.verifier Sample.env
    (Sample.request "/api/v1/health" []) (initialWorld 1000) =
  (Returned (Next, Sample.request "/api/v1/health" []),
   record (PathMatched "/api/v1/health") (initialWorld 1000)).
Proof. vm_compute. reflexivity. Qed.

Example no_credentials_are_denied :
  fst (cfAccessMiddleware Sample.networkUp Sample.verifier Sample.env
         Sample.noHeaders (initialWorld 1000)) =
  Returned (missingCredentials, Sample.noHeaders).
Proof. vm_compute. reflexivity. Qed.

Example service_token_is_admitted :
  fst (cfAccessMiddleware Sample.networkUp Sample.verifier Sample.env
         Sample.goodServiceToken (initialWorld 1000)) =
  Returned (Next,
            setIdentity (ServiceTokenIdentity "svc-id") Sample.goodServiceToken).
Proof. vm_compute. reflexivity. Qed.

Example unconfigured_issuer_is_denied :
  cfAccessMiddleware Sample.networkUp Sample.verifier Sample.envNoIssuer
    Sample.goodAssertion (initialWorld 1000) =
  (Returned (invalidAssertion, Sample.goodAssertion),
   record (VerifyCalled "valid.jwt")
     (afterAssertionRead Sample.goodAssertion (initialWorld 1000))).
Proof. vm_compute. reflexivity. Qed.

Example unavailable_key_endpoint_throws :
  getCloudflareJWKS Sample.networkUnavailable Sample.env (initialWorld 1000) =
  (Thrown {| message := "Failed to fetch Cloudflare certs: 503 Service Unavailable" |},
   record (Fetched "https://team.cloudflareaccess.com/cdn-cgi/access/certs")
     (initialWorld 1000)).
Proof. vm_compute. reflexivity. Qed.

Example unavailable_key_endpoint_is_denied :
  fst (cfAccessMiddleware Sample.networkUnavailable Sample.verifier Sample.env
         Sample.goodAssertion (initialWorld 1000)) =
  Returned (invalidAssertion, Sample.goodAssertion).
Proof. vm_compute. reflexivity. Qed.

(** * Further properties of the module *)

(** ** PathMatcher *)

(** X1. Matching against two lists put one after the other is matching
    against either: rules only ever add bypassed paths. *)
Theorem bypassLoop_app (path : string) (rules1 rules2 : list string) :
  bypassLoop path (rules1 ++ rules2)%list =
  bypassLoop path rules1 || bypassLoop path rules2.
Proof.
  induction rules1 as [|rule rules1 IH]; simpl; [done|].
  by destruct (bypassPathMatches path rule).
Qed.

Lemma bypassPathMatches_plain (path rule : string) :
  JsString.endsWith rule "*" = false ->
  bypassPathMatches path rule = true <-> path = rule.
Proof.
  intros Hplain. unfold bypassPathMatches. rewrite Hplain.
  case_bool_decide; split; done.
Qed.

(** X2. With rules that do not end in the wildcard marker the matcher is
    plain membership of the path in the list: no prefix matching and no
    normalisation of the path (case, trailing slash) happens. *)
Theorem shouldBypassAuth_plain_rules (env : Env) (path : string) :
  Forall (fun rule => JsString.endsWith rule "*" = false) (bypassPathsOf env) ->
  shouldBypassAuth env path = true <-> path ∈ bypassPathsOf env.
Proof.
  unfold shouldBypassAuth. induction (bypassPathsOf env) as [|rule rules IH].
  - intros _. simpl. split; [done|]. by intros ?%elem_of_nil.
  - intros [Hrule Hrules]%Forall_cons. simpl.
    destruct (bypassPathMatches path rule) eqn:Hm.
    + apply bypassPathMatches_plain in Hm as ->; [|done].
      split; [intros _; left | done].
    + rewrite IH by done. rewrite elem_of_cons. split; [by right|].
      intros [-> | ?]; [|done].
      assert (bypassPathMatches rule rule = true) as Hyes
        by (by apply bypassPathMatches_plain).
      congruence.
Qed.

Lemma shouldBypassAuth_plain_rules_witness :
  Forall (fun rule => JsString.endsWith rule "*" = false)
    (bypassPathsOf Sample2.envPlainRules) /\
  (shouldBypassAuth Sample2.envPlainRules "/api/v1/health/" = true <->
   "/api/v1/health/" ∈ bypassPathsOf Sample2.envPlainRules).
Proof.
  assert (Forall (fun rule => JsString.endsWith rule "*" = false)
            (bypassPathsOf Sample2.envPlainRules)) as H
    by (repeat constructor).
  exact (conj H (shouldBypassAuth_plain_rules Sample2.envPlainRules _ H)).
Defined.

(** ** AuthorizationGate *)

Section GateExtras.

Variable network : nat -> string -> FetchOutcome.
Variable jwtVerify :
  string -> JSONWebKeySet -> string -> string -> Z -> JsError + JWTVerifyResult.
Variable env : Env.

#[local] Abbreviation middleware := (cfAccessMiddleware network jwtVerify env).
#[local] Abbreviation verifyToken := (verifyCloudflareAccessToken network jwtVerify env).
#[local] Abbreviation getJWKS := (getCloudflareJWKS network env).
#[local] Abbreviation url := (certsUrlOf (CF_ACCESS_TEAM_DOMAIN env)).

(** X3. The middleware never rejects: whatever the network and jose do, it
    ends in [next()] or in one of its three 403 responses, each with
    [success: false] and the error "Access denied". *)
Theorem cfAccessMiddleware_never_rejects (req : Request) (w : World) :
  exists handled req' w',
    middleware req w = (Returned (handled, req'), w') /\
    (handled = Next \/
     exists detail,
       handled = Responded 403 {| success := false; error := "Access denied";
                                  detail := detail |} /\
       (handled = invalidServiceToken \/ handled = missingCredentials \/
        handled = invalidAssertion)).
Proof.
  rewrite cfAccessMiddleware_cases.
  destruct (gateState env req).
  - eexists _, _, _. split; [done|]. by left.
  - eexists _, _, _. split; [done|]. by left.
  - destruct (validateServiceToken _ _ _); eexists _, _, _; (split; [done|]).
    + by left.
    + right. eexists. split; [done|]. by left.
  - rewrite jwtAuthentication_cases. cbv zeta.
    destruct (truthy _).
    + destruct (verifyToken _ _) as [[result|e] w2]; eexists _, _, _;
        (split; [done|]).
      * by left.
      * right. eexists. split; [done|]. right. by right.
    + eexists _, _, _. split; [done|].
      right. eexists. split; [done|]. right. by left.
Qed.

(** X4. A request that reaches the credential checks without a service
    token and without a (non-empty) assertion header gets the 403 for
    missing credentials; the verifier is not called, the network is not
    touched, the request is left as it came. *)
Theorem missing_credentials_denied (req : Request) (w : World) :
  CF_ACCESS_ENABLED env = true ->
  shouldBypassAuth env (path req) = false ->
  serviceTokenPresented req = false ->
  truthy (header req "CF-Access-JWT-Assertion") = false ->
  middleware req w =
  (Returned (missingCredentials, req), afterAssertionRead req w).
Proof.
  intros Hon Hpath Hnone Hjwt.
  rewrite cfAccessMiddleware_cases, gateState_CheckingAssertion by done.
  rewrite jwtAuthentication_cases. cbv zeta. by rewrite Hjwt.
Qed.

(** X5. A request that reaches the credential checks with both
    service-token headers is admitted exactly when the two header values
    equal the two configured values; it is then admitted as the service
    token of that client id, with no call of the assertion branch. The
    comparison is on the values as they are: nothing is trimmed or
    case-folded. *)
Theorem service_token_admitted_iff_equal (req : Request) (w : World) :
  CF_ACCESS_ENABLED env = true ->
  shouldBypassAuth env (path req) = false ->
  serviceTokenPresented req = true ->
  (header req "CF-Access-Client-Id" = CF_ACCESS_SERVICE_TOKEN_ID env /\
   header req "CF-Access-Client-Secret" = CF_ACCESS_SERVICE_TOKEN_SECRET env ->
   exists clientId,
     header req "CF-Access-Client-Id" = Some clientId /\
     middleware req w =
     (Returned (Next, setIdentity (ServiceTokenIdentity clientId) req),
      afterCredentialRead req w)) /\
  (forall req' w',
     middleware req w = (Returned (Next, req'), w') ->
     header req "CF-Access-Client-Id" = CF_ACCESS_SERVICE_TOKEN_ID env /\
     header req "CF-Access-Client-Secret" = CF_ACCESS_SERVICE_TOKEN_SECRET env).
Proof.
  intros Hon Hpath Hboth.
  rewrite cfAccessMiddleware_cases, gateState_CheckingServiceToken by done.
  pose proof Hboth as Htruthy. unfold serviceTokenPresented in Htruthy.
  apply andb_true_iff in Htruthy as [Hid Hsecret].
  split.
  - intros [Eid Esecret].
    destruct (truthy_Some _ Hid) as (clientId & Hsome & _).
    exists clientId. split; [done|].
    unfold validateServiceToken. rewrite <- Eid, <- Esecret, Hid, Hsecret. simpl.
    rewrite !bool_decide_eq_true_2 by done. simpl. by rewrite Hsome.
  - intros req' w'.
    destruct (validateServiceToken env _ _) eqn:Hvalid; [|done].
    intros _. unfold validateServiceToken in Hvalid.
    destruct (negb _ || negb _); [done|].
    apply andb_true_iff in Hvalid as [H1 H2].
    by apply bool_decide_eq_true in H1, H2.
Qed.

End GateExtras.

(** ** KeySetCache and the effects of a request *)

Section Effects.

Variable network : nat -> string -> FetchOutcome.
Variable jwtVerify :
  string -> JSONWebKeySet -> string -> string -> Z -> JsError + JWTVerifyResult.
Variable env : Env.

#[local] Abbreviation middleware := (cfAccessMiddleware network jwtVerify env).
#[local] Abbreviation verifyToken := (verifyCloudflareAccessToken network jwtVerify env).
#[local] Abbreviation getJWKS := (getCloudflareJWKS network env).
#[local] Abbreviation url := (certsUrlOf (CF_ACCESS_TEAM_DOMAIN env)).
#[local] Abbreviation issuer := (issuerOf (CF_ACCESS_TEAM_DOMAIN env)).
#[local] Abbreviation audience := (interpolate (CF_ACCESS_AUD env)).

(** Every way a call of [getCloudflareJWKS] can end. *)
Lemma getCloudflareJWKS_effect (w : World) :
  (exists e, getJWKS w = (Thrown e, w) /\ cacheFresh w = false) \/
  (exists jwks, getJWKS w = (Returned jwks, w) /\
                cachedJWKS w = Some jwks /\ cacheFresh w = true) \/
  (exists e, getJWKS w = (Thrown e, record (Fetched url) w) /\
             cacheFresh w = false) \/
  (exists response jwks,
     network (fetchCount (trace w)) url = Resolved response /\
     ok response = true /\
     json response = inr jwks /\
     getJWKS w =
       (Returned jwks, storeJWKS jwks (clock w) (record (Fetched url) w)) /\
     cacheFresh w = false).
Proof.
  destruct (cacheFresh w) eqn:Hfresh.
  - destruct (getCloudflareJWKS_hit network env w Hfresh) as (jwks & Hc & Hrun).
    right. left. by exists jwks.
  - rewrite getCloudflareJWKS_miss by done.
    destruct (truthy (CF_ACCESS_TEAM_DOMAIN env)) eqn:Hdomain.
    + rewrite refreshCloudflareJWKS_cases by done.
      destruct (network _ _) as [e|response] eqn:Hnet;
        [right; right; left; by eexists|].
      destruct (ok response) eqn:Hok; simpl; [|right; right; left; by eexists].
      destruct (json response) as [e|jwks] eqn:Hjson.
      * right. right. left. by eexists.
      * right. right. right. by exists response, jwks.
    + left. unfold refreshCloudflareJWKS. rewrite Hdomain. by eexists.
Qed.

Lemma getCloudflareJWKS_returns_the_cached_set_aux (w : World) :
  forall jwks,
    fst (getJWKS w) = Returned jwks ->
    cachedJWKS (snd (getJWKS w)) = Some jwks /\
    clock (snd (getJWKS w)) = clock w.
Proof.
  intros jwks.
  destruct (getCloudflareJWKS_effect w)
    as [(e & -> & _) | [(jwks' & -> & Hc & Hfresh)
                       | [(e & -> & _) | (response & jwks' & _ & _ & _ & -> & _)]]];
    simpl; try done.
  - by intros [= <-].
  - by intros [= <-].
Qed.

(** X8. What [getCloudflareJWKS] returns is the value the cache variable
    holds when the call is over, whatever that value is: the parsed body of
    a 2xx response is cached and returned unchecked, the JSON value [null]
    included. The cache is fresh after the call exactly when the returned
    value is truthy, so a key set is handed out again within the hour and a
    [null] is not. The clock is not moved, and the two cache variables
    change together (to the body just fetched and the time of the call) or
    not at all. *)
Theorem getCloudflareJWKS_returns_the_cached_set (w : World) :
  (forall jwks,
     fst (getJWKS w) = Returned jwks ->
     cachedJWKS (snd (getJWKS w)) = Some jwks /\
     cacheFresh (snd (getJWKS w)) = jsonTruthy jwks) /\
  clock (snd (getJWKS w)) = clock w /\
  ((cachedJWKS (snd (getJWKS w)) = cachedJWKS w /\
    jwksCacheTime (snd (getJWKS w)) = jwksCacheTime w) \/
   (exists response jwks,
      network (fetchCount (trace w)) url = Resolved response /\
      ok response = true /\
      json response = inr jwks /\
      fst (getJWKS w) = Returned jwks /\
      cachedJWKS (snd (getJWKS w)) = Some jwks /\
      jwksCacheTime (snd (getJWKS w)) = clock w /\
      trace (snd (getJWKS w)) = Fetched url :: trace w)).
Proof.
  destruct (getCloudflareJWKS_effect w)
    as [(e & -> & _) | [(jwks & -> & Hc & Hfresh)
                       | [(e & -> & _)
                         | (response & jwks & Hnet & Hok & Hjson & -> & _)]]];
    simpl.
  - split; [done|]. split; [done|]. by left.
  - split; [|split; [done | by left]].
    intros jwks' [= <-]. split; [done|].
    rewrite Hfresh. unfold cacheFresh in Hfresh. rewrite Hc in Hfresh.
    symmetry. by apply andb_true_iff in Hfresh as [? _].
  - split; [done|]. split; [done|]. by left.
  - split; [|split; [done|]].
    + intros jwks' [= <-]. split; [done|].
      unfold cacheFresh. simpl. rewrite Z.sub_diag. apply andb_true_r.
    + right. by exists response, jwks.
Qed.

Lemma countEvents_app (p : Event -> bool) (tr1 tr2 : list Event) :
  countEvents p (tr1 ++ tr2)%list = (countEvents p tr1 + countEvents p tr2)%nat.
Proof.
  induction tr1 as [|e tr1 IH]; simpl; [done|].
  destruct (p e); simpl; lia.
Qed.

(** What the verifier adds to the trace, and what it does to the cache. *)
Lemma verifyCloudflareAccessToken_effect (token : string) (w : World) :
  exists tr,
    trace (snd (verifyToken token w)) = (tr ++ trace w)%list /\
    (fetchCount tr <= 1)%nat /\
    (countEvents isJwtVerified tr <= 1)%nat /\
    (countEvents isVerifyCalled tr <= 1)%nat /\
    clock (snd (verifyToken token w)) = clock w /\
    ((cachedJWKS (snd (verifyToken token w)) = cachedJWKS w /\
      jwksCacheTime (snd (verifyToken token w)) = jwksCacheTime w /\
      fetchCount tr = O \/
      exists e, fst (verifyToken token w) = Thrown e /\
                cachedJWKS (snd (verifyToken token w)) = cachedJWKS w /\
                jwksCacheTime (snd (verifyToken token w)) = jwksCacheTime w) \/
     (exists response jwks,
        network (fetchCount (trace w)) url = Resolved response /\
        ok response = true /\
        json response = inr jwks /\
        cachedJWKS (snd (verifyToken token w)) = Some jwks /\
        jwksCacheTime (snd (verifyToken token w)) = clock w /\
        fetchCount tr = 1%nat)).
Proof.
  rewrite verifyCloudflareAccessToken_cases. cbv zeta.
  set (w1 := record (VerifyCalled token) w).
  destruct (negb _ || negb _).
  { exists [VerifyCalled token]. simpl. repeat split; auto. }
  destruct (getCloudflareJWKS_effect w1)
    as [(e & -> & _) | [(jwks & -> & Hc & Hfresh)
                       | [(e & -> & _)
                         | (response & jwks & Hnet & Hok & Hjson & -> & _)]]];
    simpl.
  - exists [VerifyCalled token]. simpl. repeat split; auto.
  - destruct (jwtVerify _ _ _ _ _); simpl;
      exists [JwtVerified token issuer audience; VerifyCalled token]; simpl;
      repeat split; auto.
  - exists [Fetched url; VerifyCalled token]. simpl. repeat split; auto.
    left. right. by exists e.
  - destruct (jwtVerify _ _ _ _ _); simpl;
      exists [JwtVerified token issuer audience; Fetched url; VerifyCalled token];
      simpl; repeat split; auto; right; by exists response, jwks.
Qed.

(** X6. A request settled by the disabled gate, by a bypass rule or by the
    service-token check never touches the key-set cache, the network or
    jose: both cache variables, the clock, the number of fetches and the
    number of token verifications are what they were. *)
Theorem only_assertion_path_has_effects (req : Request) (w : World) :
  gateState env req <> CheckingAssertion ->
  cachedJWKS (snd (middleware req w)) = cachedJWKS w /\
  jwksCacheTime (snd (middleware req w)) = jwksCacheTime w /\
  clock (snd (middleware req w)) = clock w /\
  fetchCount (trace (snd (middleware req w))) = fetchCount (trace w) /\
  countEvents isJwtVerified (trace (snd (middleware req w))) =
    countEvents isJwtVerified (trace w).
Proof.
  intros Hstate. rewrite cfAccessMiddleware_cases.
  destruct (gateState env req); try done.
  by destruct (validateServiceToken _ _ _).
Qed.

(** X7. One request makes at most one fetch and at most one call of
    [jose.jwtVerify]; what was recorded before stays recorded, and the clock
    is not moved. *)
Theorem one_request_bounded_effects (req : Request) (w : World) :
  exists tr,
    trace (snd (middleware req w)) = (tr ++ trace w)%list /\
    (fetchCount tr <= 1)%nat /\
    (countEvents isJwtVerified tr <= 1)%nat /\
    (countEvents isVerifyCalled tr <= 1)%nat /\
    clock (snd (middleware req w)) = clock w.
Proof.
  rewrite cfAccessMiddleware_cases. unfold fetchCount.
  destruct (gateState env req).
  - exists []. simpl. repeat split; (done || lia).
  - exists [PathMatched (path req)]. simpl. repeat split; (done || lia).
  - destruct (validateServiceToken _ _ _); simpl;
      exists [HeaderRead "CF-Access-Client-Secret";
              HeaderRead "CF-Access-Client-Id"; PathMatched (path req)];
      simpl; repeat split; (done || lia).
  - rewrite jwtAuthentication_cases. cbv zeta.
    set (w1 := record (HeaderRead "CF-Access-JWT-Assertion")
                 (afterCredentialRead req w)).
    destruct (truthy _).
    + destruct (verifyCloudflareAccessToken_effect
                  (interpolate (header req "CF-Access-JWT-Assertion")) w1)
        as (tr & Htr & Hf & Hj & Hv & Hclock & _).
      exists (tr ++ [HeaderRead "CF-Access-JWT-Assertion";
                     HeaderRead "CF-Access-Client-Secret";
                     HeaderRead "CF-Access-Client-Id"; PathMatched (path req)])%list.
      unfold fetchCount in *. rewrite !countEvents_app. simpl.
      destruct (verifyToken _ w1) as [[result|e] w2]; simpl in *;
        rewrite Htr, <- app_assoc; repeat split; (done || lia).
    + exists [HeaderRead "CF-Access-JWT-Assertion";
              HeaderRead "CF-Access-Client-Secret";
              HeaderRead "CF-Access-Client-Id"; PathMatched (path req)].
      simpl. repeat split; (done || lia).
Qed.

(** X9. No request half-writes the cache: after the middleware the two
    cache variables are what they were, or they hold the parsed body of a
    2xx response that this request fetched, together with the time of this
    request. The body is stored as it was parsed, so what the cache holds
    afterwards is a key set only if the endpoint sent one; a body [null]
    leaves the cache empty. *)
Theorem cache_written_whole_or_not_at_all (req : Request) (w : World) :
  (cachedJWKS (snd (middleware req w)) = cachedJWKS w /\
   jwksCacheTime (snd (middleware req w)) = jwksCacheTime w) \/
  (exists response body,
     network (fetchCount (trace w)) url = Resolved response /\
     ok response = true /\
     json response = inr body /\
     cachedJWKS (snd (middleware req w)) = Some body /\
     jwksCacheTime (snd (middleware req w)) = clock w /\
     fetchCount (trace (snd (middleware req w))) = S (fetchCount (trace w))).
Proof.
  rewrite cfAccessMiddleware_cases.
  destruct (gateState env req); try (by left).
  - left. by destruct (validateServiceToken _ _ _).
  - rewrite jwtAuthentication_cases. cbv zeta.
    set (w1 := record (HeaderRead "CF-Access-JWT-Assertion")
                 (afterCredentialRead req w)).
    destruct (truthy _); [|by left].
    destruct (verifyCloudflareAccessToken_effect
                (interpolate (header req "CF-Access-JWT-Assertion")) w1)
      as (tr & Htr & _ & _ & _ & _ & Hcache).
    destruct (verifyToken _ w1) as [[result|e] w2]; simpl in *.
    + destruct Hcache
        as [[(? & ? & ?) | (e & ? & _)]
           | (response & body & Hnet & Hok & Hjson & ? & ? & Hone)];
        [by left | done |].
      right. exists response, body. repeat split; [done..|].
      rewrite Htr. unfold fetchCount in *. rewrite countEvents_app, Hone. done.
    + destruct Hcache
        as [[(? & ? & ?) | (e' & _ & ? & ?)]
           | (response & body & Hnet & Hok & Hjson & ? & ? & Hone)];
        [by left | by left |].
      right. exists response, body. repeat split; [done..|].
      rewrite Htr. unfold fetchCount in *. rewrite countEvents_app, Hone. done.
Qed.

(** X11. A failed refresh does not stand in the way of the next one: when
    a call misses the cache and its fetch fails, a call made later whose
    fetch delivers a key set returns that key set and caches it. *)
Theorem getCloudflareJWKS_recovers (w : World) (t : Z) (response : Response)
    (jwks : JSONWebKeySet) :
  truthy (CF_ACCESS_TEAM_DOMAIN env) = true ->
  cacheFresh w = false ->
  fetchFails (network (fetchCount (trace w)) url) = true ->
  clock w <= t ->
  network (S (fetchCount (trace w))) url = Resolved response ->
  ok response = true ->
  json response = inr jwks ->
  let w1 := snd (getJWKS w) in
  (exists e, fst (getJWKS w) = Thrown e) /\
  getJWKS (atTime t w1) =
  (Returned jwks, storeJWKS jwks t (record (Fetched url) (atTime t w1))).
Proof.
  intros Hdomain Hmiss Hfails Hlater Hnet Hok Hjson. cbv zeta.
  rewrite (getCloudflareJWKS_miss _ _ w) by done.
  destruct (refresh_failure network env (clock w) w) as [e ->]; [done..|].
  simpl. split; [by exists e|].
  rewrite getCloudflareJWKS_miss.
  - rewrite refreshCloudflareJWKS_cases by done. simpl.
    change (fetchCount (Fetched url :: trace w)) with (S (fetchCount (trace w))).
    by rewrite Hnet, Hok, Hjson.
  - unfold cacheFresh in *. simpl.
    destruct (cachedJWKS w) as [cached|]; [|done].
    apply andb_false_iff in Hmiss as [Hfalsy|Hstale];
      apply andb_false_iff; [by left | right].
    apply Z.ltb_ge in Hstale. apply Z.ltb_ge. lia.
Qed.

(** X12. Every admission on the assertion path rests on an acceptance by
    [jose.jwtVerify]: of the token of the assertion header, against the
    issuer [https://<team domain>.cloudflareaccess.com] and the configured
    audience, with the key set that the cache holds when the request is
    over; the identity attached is made of the accepted payload. *)
Theorem assertion_admission_is_verified (req req' : Request) (w w' : World) :
  gateState env req = CheckingAssertion ->
  middleware req w = (Returned (Next, req'), w') ->
  truthy (CF_ACCESS_TEAM_DOMAIN env) = true /\
  truthy (CF_ACCESS_AUD env) = true /\
  exists token jwks result,
    header req "CF-Access-JWT-Assertion" = Some token /\
    JsString.nonempty token = true /\
    jwtVerify token jwks issuer audience (clock w) = inr result /\
    cachedJWKS w' = Some jwks /\
    req' = setIdentity (identityOfClaims (payload result)) req.
Proof.
  intros Hstate. rewrite cfAccessMiddleware_cases, Hstate.
  rewrite jwtAuthentication_cases. cbv zeta.
  destruct (truthy (header req "CF-Access-JWT-Assertion")) eqn:Hjwt; [|done].
  apply truthy_Some in Hjwt as (token & Hheader & Htoken).
  rewrite Hheader. simpl interpolate.
  rewrite verifyCloudflareAccessToken_cases. cbv zeta.
  set (w1 := record (VerifyCalled token) _).
  destruct (truthy (CF_ACCESS_TEAM_DOMAIN env)); [|done].
  destruct (truthy (CF_ACCESS_AUD env)); [|done]. simpl.
  pose proof (getCloudflareJWKS_returns_the_cached_set_aux w1) as Hpost.
  destruct (getJWKS w1) as [[jwks|e] w2] eqn:Hkeys; [|done].
  simpl in Hpost. destruct (Hpost jwks eq_refl) as (Hcached & Hclock).
  destruct (jwtVerify token jwks issuer audience (clock w2)) as [e|result] eqn:Hv;
    [done|].
  intros [= <- <-]. split; [done|]. split; [done|].
  exists token, jwks, result. rewrite <- Hclock. repeat split; done.
Qed.

End Effects.

(** ** The cache against the network, and the version before service tokens *)

Section Versions.

Variable jwtVerify :
  string -> JSONWebKeySet -> string -> string -> Z -> JsError + JWTVerifyResult.
Variable env : Env.

(** X10. While the cached key set is fresh the network plays no part:
    with any two networks the middleware gives the same answer and leaves
    the same world, so an outage of the key endpoint is not felt before the
    hour is over. *)
Theorem fresh_cache_hides_the_network
    (network1 network2 : nat -> string -> FetchOutcome)
    (req : Request) (w : World) :
  cacheFresh w = true ->
  cfAccessMiddleware network1 jwtVerify env req w =
  cfAccessMiddleware network2 jwtVerify env req w.
Proof.
  intros Hfresh. rewrite !cfAccessMiddleware_cases.
  destruct (gateState env req); try done.
  rewrite !jwtAuthentication_cases. cbv zeta.
  destruct (truthy _); [|done].
  rewrite !verifyCloudflareAccessToken_cases. cbv zeta.
  set (w1 := record (VerifyCalled _) _).
  destruct (negb _ || negb _); [done|].
  assert (cacheFresh w1 = true) as Hfresh1 by done.
  destruct (getCloudflareJWKS_hit network1 env w1 Hfresh1) as (jwks1 & Hc1 & ->).
  destruct (getCloudflareJWKS_hit network2 env w1 Hfresh1) as (jwks2 & Hc2 & ->).
  assert (jwks1 = jwks2) as -> by congruence.
  done.
Qed.

Variable network : nat -> string -> FetchOutcome.

#[local] Abbreviation legacy := (cfAccessMiddlewareLegacy network jwtVerify env).
#[local] Abbreviation middleware := (cfAccessMiddleware network jwtVerify env).
#[local] Abbreviation verifyToken := (verifyCloudflareAccessToken network jwtVerify env).
#[local] Abbreviation getJWKS := (getCloudflareJWKS network env).

Lemma sameState_both (w1 w2 : World) (e : Event) :
  sameState w1 w2 -> sameState (record e w1) (record e w2).
Proof.
  intros (? & ? & ? & Hcount). repeat split; try done.
  unfold fetchCount in *. simpl. destruct (isFetched e); congruence.
Qed.

(** The key-set call does not look at the calls recorded, only at how
    many fetches were made. *)
Lemma getCloudflareJWKS_sameState (w1 w2 : World) :
  sameState w1 w2 ->
  fst (getJWKS w1) = fst (getJWKS w2) /\
  sameState (snd (getJWKS w1)) (snd (getJWKS w2)).
Proof.
  intros Hsame. pose proof Hsame as (Hc & Ht & Hclock & Hcount).
  assert (cacheFresh w1 = cacheFresh w2) as Hfresh
    by (unfold cacheFresh; by rewrite Hc, Ht, Hclock).
  destruct (cacheFresh w2) eqn:Hfresh2.
  - destruct (getCloudflareJWKS_hit network env w1 Hfresh) as (jwks1 & Hc1 & ->).
    destruct (getCloudflareJWKS_hit network env w2 Hfresh2) as (jwks2 & Hc2 & ->).
    simpl. split; [congruence | done].
  - rewrite !getCloudflareJWKS_miss by done.
    destruct (truthy (CF_ACCESS_TEAM_DOMAIN env)) eqn:Hdomain.
    + rewrite !refreshCloudflareJWKS_cases by done. rewrite Hcount, Hclock.
      destruct (network _ _) as [e|response]; simpl.
      { split; [done | by apply sameState_both]. }
      destruct (ok response); simpl.
      2:{ split; [done | by apply sameState_both]. }
      destruct (json response); simpl.
      * split; [done | by apply sameState_both].
      * split; [done|]. repeat split; simpl; try done.
        unfold fetchCount in *. simpl. congruence.
    + unfold refreshCloudflareJWKS. rewrite Hdomain. done.
Qed.

Lemma verifyCloudflareAccessToken_sameState (token : string) (w1 w2 : World) :
  sameState w1 w2 ->
  fst (verifyToken token w1) = fst (verifyToken token w2) /\
  sameState (snd (verifyToken token w1)) (snd (verifyToken token w2)).
Proof.
  intros Hsame. rewrite !verifyCloudflareAccessToken_cases. cbv zeta.
  assert (sameState (record (VerifyCalled token) w1) (record (VerifyCalled token) w2))
    as Hsame1 by (by apply sameState_both).
  destruct (negb _ || negb _); [done|].
  destruct (getCloudflareJWKS_sameState _ _ Hsame1) as [Hr Hs].
  destruct (getJWKS (record (VerifyCalled token) w1)) as [[jwks1|e1] u1];
    destruct (getJWKS (record (VerifyCalled token) w2)) as [[jwks2|e2] u2];
    simpl in *; try done.
  - injection Hr as ->. pose proof Hs as (? & ? & Hclock & ?). rewrite Hclock.
    destruct (jwtVerify _ _ _ _ _); simpl;
      (split; [done | by apply sameState_both]).
  - injection Hr as ->. by split.
Qed.

(** X13. On a request that does not carry both service-token headers the
    middleware with service tokens decides as the one before it did: same
    outcome, the same identity up to its [type] field, and worlds that
    differ only in the two header reads recorded. *)
Theorem legacy_agrees_without_service_token (req : Request) (w : World) :
  serviceTokenPresented req = false ->
  exists handled annotation wNew wOld,
    middleware req w = (Returned (handled, annotate annotation req), wNew) /\
    legacy req w = (Returned (handled, annotation ≫= withoutType), wOld) /\
    sameState wNew wOld /\
    (forall identity,
       annotation = Some identity ->
       exists email sub iat exp, identity = JwtIdentity email sub iat exp).
Proof.
  intros Hnone. rewrite cfAccessMiddleware_cases.
  unfold gateState, cfAccessMiddlewareLegacy. rewrite Hnone.
  destruct (CF_ACCESS_ENABLED env); simpl.
  2:{ exists Next, None, w, w. by repeat split. }
  unfold bind at 1, callShouldBypassAuth at 1.
  destruct (shouldBypassAuth env (path req)).
  { eexists Next, None, _, _. by repeat split. }
  rewrite jwtAuthentication_cases. cbv zeta.
  unfold bind, req_get, tryCatch, ret.
  set (wNew1 := record (HeaderRead "CF-Access-JWT-Assertion")
                  (afterCredentialRead req w)).
  set (wOld1 := record (HeaderRead "CF-Access-JWT-Assertion")
                  (record (PathMatched (path req)) w)).
  assert (sameState wNew1 wOld1) as Hsame by (by repeat split).
  destruct (header req "CF-Access-JWT-Assertion") as [token|] eqn:Hjwt; simpl.
  2:{ eexists missingCredentials, None, _, _. by repeat split. }
  destruct (JsString.nonempty token).
  2:{ eexists missingCredentials, None, _, _. by repeat split. }
  destruct (verifyCloudflareAccessToken_sameState token _ _ Hsame) as [Hr Hs].
  destruct (verifyToken token wNew1) as [[result1|e1] u1];
    destruct (verifyToken token wOld1) as [[result2|e2] u2];
    simpl in *; try done.
  - injection Hr as ->.
    eexists Next, (Some (identityOfClaims (payload result2))), _, _.
    split; [done|]. split; [done|]. split; [done|].
    intros identity [= <-]. by eexists _, _, _, _.
  - eexists invalidAssertion, None, _, _.
    split; [done|]. split; [done|]. split; [done|]. by intros ? [=].
Qed.

End Versions.

(** ** The worker *)

Section WorkerProperties.

Variable newURL : string -> option string -> completion Worker.URL.
Variable headerValue : string -> completion string.
Variable upstream : Worker.ProxyRequest -> completion Worker.Response.
Variable responseInitError : option string -> Z -> string -> option JsError.

#[local] Abbreviation workerFetch :=
  (Worker.fetch newURL headerValue upstream responseInitError).
#[local] Abbreviation workerFetchLegacy :=
  (Worker.fetchLegacy newURL headerValue upstream responseInitError).
#[local] Abbreviation build := (Worker.buildProxyRequest newURL headerValue).
#[local] Abbreviation forwarding := (Worker.forwardingHeaders newURL headerValue).
#[local] Abbreviation inject := (Worker.injectServiceToken headerValue).
#[local] Abbreviation relay := (Worker.relay responseInitError).

Lemma bindE_Returned {A B} (m : completion A) (k : A -> completion B) (b : B) :
  Worker.bindE m k = Returned b -> exists a, m = Returned a /\ k a = Returned b.
Proof. destruct m as [a|e]; simpl; [eauto | done]. Qed.

Lemma headers_set_Returned (h h' : gmap string string) (name value : string) :
  Worker.headers_set headerValue h name value = Returned h' ->
  exists v, headerValue value = Returned v /\
            h' = <[JsString.toLowerCase name := v]> h.
Proof.
  unfold Worker.headers_set. intros (v & Hv & [= <-])%bindE_Returned. eauto.
Qed.

(** What the forwarding headers are when they could be built. *)
Lemma forwardingHeaders_Returned (cloudRunUrl : string) (request : Worker.Request)
    (targetUrl : Worker.URL) (h : gmap string string) :
  forwarding cloudRunUrl request = Returned (targetUrl, h) ->
  exists url host proto,
    newURL (Worker.url request) None = Returned url /\
    newURL (Worker.pathname url +:+ Worker.search url) (Some cloudRunUrl) =
      Returned targetUrl /\
    headerValue (Worker.hostname url) = Returned host /\
    headerValue (Worker.replace (Worker.protocol url) ":" "") = Returned proto /\
    let h2 := <["x-forwarded-proto" := proto]>
                (<["x-forwarded-host" := host]> (Worker.headers request)) in
    match Worker.headers request !! "cf-connecting-ip" with
    | Some ip =>
        if JsString.nonempty ip then
          exists ip', headerValue ip = Returned ip' /\ h = <["x-real-ip" := ip']> h2
        else h = h2
    | None => h = h2
    end.
Proof.
  unfold Worker.forwardingHeaders.
  intros (url & Hurl & H)%bindE_Returned.
  apply bindE_Returned in H as (target & Htarget & H).
  apply bindE_Returned in H as (h1 & (host & Hhost & ->)%headers_set_Returned & H).
  apply bindE_Returned in H as (h2 & (proto & Hproto & ->)%headers_set_Returned & H).
  apply bindE_Returned in H as (h3 & Hip & [= <- <-]).
  exists url, host, proto. repeat split; try done.
  unfold Worker.headers_get in Hip.
  change (JsString.toLowerCase "CF-Connecting-IP") with "cf-connecting-ip" in Hip.
  change (JsString.toLowerCase "X-Forwarded-Host") with "x-forwarded-host" in Hip.
  change (JsString.toLowerCase "X-Forwarded-Proto") with "x-forwarded-proto" in Hip.
  cbv zeta.
  change (JsString.toLowerCase "X-Forwarded-Host") with "x-forwarded-host".
  change (JsString.toLowerCase "X-Forwarded-Proto") with "x-forwarded-proto".
  destruct (Worker.headers request !! "cf-connecting-ip") as [ip|]; [|by injection Hip].
  destruct (JsString.nonempty ip); [|by injection Hip].
  apply headers_set_Returned in Hip as (ip' & Hip' & ->). by exists ip'.
Qed.

(** What the injection does when it does not throw. *)
Lemma injectServiceToken_Returned (env : Worker.Env) (h h' : gmap string string) :
  inject env h = Returned h' ->
  match Worker.CF_ACCESS_CLIENT_ID env, Worker.CF_ACCESS_CLIENT_SECRET env with
  | Some id, Some secret =>
      if JsString.nonempty id && JsString.nonempty secret then
        exists id' secret',
          headerValue id = Returned id' /\
          headerValue secret = Returned secret' /\
          h' = <["cf-access-client-secret" := secret']>
                 (<["cf-access-client-id" := id']> h)
      else h' = h
  | _, _ => h' = h
  end.
Proof.
  unfold Worker.injectServiceToken.
  destruct (Worker.CF_ACCESS_CLIENT_ID env) as [id|];
    destruct (Worker.CF_ACCESS_CLIENT_SECRET env) as [secret|];
    try (by intros [= <-]).
  destruct (JsString.nonempty id && JsString.nonempty secret);
    [|by intros [= <-]].
  intros (h1 & (id' & Hid & ->)%headers_set_Returned & H)%bindE_Returned.
  apply headers_set_Returned in H as (secret' & Hsecret & ->).
  by exists id', secret'.
Qed.

Lemma buildProxyRequest_Returned (env : Worker.Env) (cloudRunUrl : string)
    (request : Worker.Request) (pr : Worker.ProxyRequest) :
  build env cloudRunUrl request = Returned pr ->
  exists targetUrl h,
    forwarding cloudRunUrl request = Returned (targetUrl, h) /\
    inject env h = Returned (Worker.proxyHeaders pr) /\
    pr = Worker.proxyRequestOf request targetUrl (Worker.proxyHeaders pr).
Proof.
  unfold Worker.buildProxyRequest.
  intros ([targetUrl h] & Hf & H)%bindE_Returned.
  apply bindE_Returned in H as (h' & Hi & [= <-]).
  by exists targetUrl, h.
Qed.

(** X14. The worker always answers. Without [CLOUD_RUN_URL] it answers 500
    and nothing else happens. With it, the answer is the upstream response
    as [relay] hands it back, or, when anything on the way throws (a URL
    that does not parse, a refused header value, the upstream fetch, the
    response constructor), a 502 whose body is "Proxy error: " followed by
    the message of what was thrown. *)
Theorem worker_always_answers (request : Worker.Request) (env : Worker.Env) :
  exists r,
    workerFetch request env = Returned r /\
    match truthy (Worker.CLOUD_RUN_URL env) with
    | false => r = Worker.textResponse "Worker misconfigured: CLOUD_RUN_URL not set" 500
    | true =>
        let cloudRunUrl := interpolate (Worker.CLOUD_RUN_URL env) in
        (exists pr response,
           build env cloudRunUrl request = Returned pr /\
           upstream pr = Returned response /\
           relay response = Returned r) \/
        (exists e,
           r = Worker.textResponse ("Proxy error: " +:+ message e) 502 /\
           (build env cloudRunUrl request = Thrown e \/
            (exists pr, build env cloudRunUrl request = Returned pr /\
                        upstream pr = Thrown e) \/
            (exists pr response,
               build env cloudRunUrl request = Returned pr /\
               upstream pr = Returned response /\
               relay response = Thrown e)))
    end.
Proof.
  unfold Worker.fetch, truthy.
  destruct (Worker.CLOUD_RUN_URL env) as [cloudRunUrl|]; [|by eexists].
  destruct (JsString.nonempty cloudRunUrl); [|by eexists]. simpl interpolate.
  cbv zeta.
  destruct (build env cloudRunUrl request) as [pr|e] eqn:Hbuild; simpl.
  2:{ eexists. split; [done|]. right. exists e. split; [done|]. by left. }
  destruct (upstream pr) as [response|e] eqn:Hup; simpl.
  2:{ eexists. split; [done|]. right. exists e. split; [done|].
      right. left. by exists pr. }
  destruct (relay response) as [r|e] eqn:Hrelay; simpl.
  - exists r. split; [done|]. left. by exists pr, response.
  - eexists. split; [done|]. right. exists e. split; [done|].
    right. right. by exists pr, response.
Qed.

(** X15. When both secrets of the worker are set, the proxied request
    carries them in the two service-token headers, whatever the client put
    in those headers. *)
Theorem worker_token_overrides_client (env : Worker.Env) (cloudRunUrl : string)
    (request : Worker.Request) (pr : Worker.ProxyRequest) (id secret : string) :
  Worker.CF_ACCESS_CLIENT_ID env = Some id ->
  Worker.CF_ACCESS_CLIENT_SECRET env = Some secret ->
  JsString.nonempty id = true ->
  JsString.nonempty secret = true ->
  build env cloudRunUrl request = Returned pr ->
  exists id' secret',
    headerValue id = Returned id' /\
    headerValue secret = Returned secret' /\
    Worker.proxyHeaders pr !! "cf-access-client-id" = Some id' /\
    Worker.proxyHeaders pr !! "cf-access-client-secret" = Some secret'.
Proof.
  intros Hid Hsecret Hnid Hnsecret Hbuild.
  apply buildProxyRequest_Returned in Hbuild as (targetUrl & h & _ & Hinject & _).
  apply injectServiceToken_Returned in Hinject.
  rewrite Hid, Hsecret, Hnid, Hnsecret in Hinject. simpl in Hinject.
  destruct Hinject as (id' & secret' & Hid' & Hsecret' & ->).
  exists id', secret'. repeat split; try done.
  - rewrite lookup_insert_ne by done. apply lookup_insert_eq.
  - apply lookup_insert_eq.
Qed.

(** X16. The worker forwards the method, the body and every header it
    does not write. It writes the two forwarding headers always, [X-Real-IP]
    only when [CF-Connecting-IP] has a value, and the two service-token
    headers only when both secrets are set: otherwise the client's own
    [X-Real-IP], and the client's own service-token headers, reach the
    application as they were sent. *)
Theorem worker_forwards_what_it_does_not_write (env : Worker.Env)
    (cloudRunUrl : string) (request : Worker.Request) (pr : Worker.ProxyRequest) :
  build env cloudRunUrl request = Returned pr ->
  Worker.proxyMethod pr = Worker.method request /\
  Worker.proxyBody pr = Worker.body request /\
  Worker.redirect pr = "manual" /\
  (forall name,
     name ∉ Worker.writtenNames ->
     Worker.proxyHeaders pr !! name = Worker.headers request !! name) /\
  (truthy (Worker.headers request !! "cf-connecting-ip") = false ->
   Worker.proxyHeaders pr !! "x-real-ip" = Worker.headers request !! "x-real-ip") /\
  (truthy (Worker.CF_ACCESS_CLIENT_ID env) &&
   truthy (Worker.CF_ACCESS_CLIENT_SECRET env) = false ->
   Worker.proxyHeaders pr !! "cf-access-client-id" =
     Worker.headers request !! "cf-access-client-id" /\
   Worker.proxyHeaders pr !! "cf-access-client-secret" =
     Worker.headers request !! "cf-access-client-secret").
Proof.
  intros Hbuild.
  apply buildProxyRequest_Returned in Hbuild as (targetUrl & h & Hf & Hinject & Hpr).
  apply forwardingHeaders_Returned in Hf
    as (url & host & proto & _ & _ & _ & _ & Hh).
  apply injectServiceToken_Returned in Hinject.
  cbv zeta in Hh.
  set (h2 := <["x-forwarded-proto" := proto]>
               (<["x-forwarded-host" := host]> (Worker.headers request))) in *.
  assert (forall name, name <> "x-forwarded-host" -> name <> "x-forwarded-proto" ->
                       h2 !! name = Worker.headers request !! name) as Hh2.
  { intros name ? ?. unfold h2. by rewrite !lookup_insert_ne. }
  assert (forall name, name <> "x-forwarded-host" -> name <> "x-forwarded-proto" ->
                       name <> "x-real-ip" ->
                       h !! name = Worker.headers request !! name) as Hother.
  { intros name ? ? ?. revert Hh.
    destruct (Worker.headers request !! "cf-connecting-ip") as [ip|];
      [|by intros ->; rewrite Hh2].
    destruct (JsString.nonempty ip); [|by intros ->; rewrite Hh2].
    intros (ip' & _ & ->). by rewrite lookup_insert_ne, Hh2. }
  assert (truthy (Worker.headers request !! "cf-connecting-ip") = false ->
          h = h2) as Hnoip.
  { unfold truthy. revert Hh.
    destruct (Worker.headers request !! "cf-connecting-ip") as [ip|]; [|done].
    intros Hh Hip. by rewrite Hip in Hh. }
  assert (forall name, name <> "cf-access-client-id" ->
                       name <> "cf-access-client-secret" ->
                       Worker.proxyHeaders pr !! name = h !! name) as Hkeep.
  { intros name ? ?. revert Hinject.
    destruct (Worker.CF_ACCESS_CLIENT_ID env) as [id|];
      destruct (Worker.CF_ACCESS_CLIENT_SECRET env) as [secret|];
      try (by intros ->).
    destruct (JsString.nonempty id && JsString.nonempty secret);
      [|by intros ->].
    intros (id' & secret' & _ & _ & ->).
    by rewrite !lookup_insert_ne. }
  assert (truthy (Worker.CF_ACCESS_CLIENT_ID env) &&
          truthy (Worker.CF_ACCESS_CLIENT_SECRET env) = false ->
          Worker.proxyHeaders pr = h) as Hnotoken.
  { unfold truthy. revert Hinject.
    destruct (Worker.CF_ACCESS_CLIENT_ID env) as [id|];
      destruct (Worker.CF_ACCESS_CLIENT_SECRET env) as [secret|]; try done.
    intros Hinject Hno. by rewrite Hno in Hinject. }
  rewrite Hpr. simpl. repeat split; try done.
  - intros name Hname. unfold Worker.writtenNames in Hname.
    rewrite !not_elem_of_cons in Hname. destruct Hname as (? & ? & ? & ? & ? & _).
    rewrite Hkeep by done. by apply Hother.
  - intros Hip. rewrite Hkeep by done. rewrite (Hnoip Hip). by apply Hh2.
  - rewrite (Hnotoken H). by apply Hother.
  - rewrite (Hnotoken H). by apply Hother.
Qed.

Lemma replace_trailing_colon (scheme : string) :
  (forall p q, scheme <> p +:+ ":" +:+ q) ->
  Worker.replace (scheme +:+ ":") ":" "" = scheme.
Proof.
  induction scheme as [|c scheme IH]; intros Hno; [done|].
  simpl. case_bool_decide as Hc.
  - exfalso. apply (Hno "" scheme). by rewrite Hc.
  - simpl. f_equal. apply IH. intros p q ->. by apply (Hno (String c p) q).
Qed.

(** X17. The proxied request goes to the URL made of the path and query
    of the incoming URL resolved against [CLOUD_RUN_URL]. Its
    [X-Forwarded-Host] is the host name of the incoming URL and its
    [X-Forwarded-Proto] the protocol without the colon ("https:" gives
    "https"), whatever the client sent under these names; its [X-Real-IP]
    is the value of [CF-Connecting-IP] when that header has one. *)
Theorem worker_forwarding_headers (env : Worker.Env) (cloudRunUrl : string)
    (request : Worker.Request) (pr : Worker.ProxyRequest) :
  build env cloudRunUrl request = Returned pr ->
  exists url targetUrl host proto,
    newURL (Worker.url request) None = Returned url /\
    newURL (Worker.pathname url +:+ Worker.search url) (Some cloudRunUrl) =
      Returned targetUrl /\
    Worker.target pr = Worker.href targetUrl /\
    headerValue (Worker.hostname url) = Returned host /\
    Worker.proxyHeaders pr !! "x-forwarded-host" = Some host /\
    headerValue (Worker.replace (Worker.protocol url) ":" "") = Returned proto /\
    Worker.proxyHeaders pr !! "x-forwarded-proto" = Some proto /\
    (forall scheme,
       Worker.protocol url = scheme +:+ ":" ->
       (forall p q, scheme <> p +:+ ":" +:+ q) ->
       Worker.replace (Worker.protocol url) ":" "" = scheme) /\
    (forall ip,
       Worker.headers request !! "cf-connecting-ip" = Some ip ->
       JsString.nonempty ip = true ->
       exists ip',
         headerValue ip = Returned ip' /\
         Worker.proxyHeaders pr !! "x-real-ip" = Some ip').
Proof.
  intros Hbuild.
  apply buildProxyRequest_Returned in Hbuild as (targetUrl & h & Hf & Hinject & Hpr).
  apply forwardingHeaders_Returned in Hf
    as (url & host & proto & Hurl & Htarget & Hhost & Hproto & Hh).
  apply injectServiceToken_Returned in Hinject. cbv zeta in Hh.
  assert (forall name, name <> "cf-access-client-id" ->
                       name <> "cf-access-client-secret" ->
                       Worker.proxyHeaders pr !! name = h !! name) as Hkeep.
  { intros name ? ?. revert Hinject.
    destruct (Worker.CF_ACCESS_CLIENT_ID env) as [id|];
      destruct (Worker.CF_ACCESS_CLIENT_SECRET env) as [secret|];
      try (by intros ->).
    destruct (JsString.nonempty id && JsString.nonempty secret);
      [|by intros ->].
    intros (id' & secret' & _ & _ & ->).
    by rewrite !lookup_insert_ne. }
  exists url, targetUrl, host, proto.
  split; [done|]. split; [done|]. split; [by rewrite Hpr|].
  split; [done|]. split.
  { rewrite Hkeep by done. revert Hh.
    destruct (Worker.headers request !! "cf-connecting-ip") as [ip|].
    - destruct (JsString.nonempty ip).
      + intros (ip' & _ & ->).
        rewrite !lookup_insert_ne by done. apply lookup_insert_eq.
      + intros ->. rewrite lookup_insert_ne by done. apply lookup_insert_eq.
    - intros ->. rewrite lookup_insert_ne by done. apply lookup_insert_eq. }
  split; [done|]. split.
  { rewrite Hkeep by done. revert Hh.
    destruct (Worker.headers request !! "cf-connecting-ip") as [ip|].
    - destruct (JsString.nonempty ip).
      + intros (ip' & _ & ->).
        rewrite lookup_insert_ne by done. apply lookup_insert_eq.
      + intros ->. apply lookup_insert_eq.
    - intros ->. apply lookup_insert_eq. }
  split.
  { intros scheme -> Hno. by apply replace_trailing_colon. }
  intros ip Hip Hnonempty. rewrite Hip, Hnonempty in Hh.
  destruct Hh as (ip' & Hip' & ->). exists ip'. split; [done|].
  rewrite Hkeep by done. apply lookup_insert_eq.
Qed.

(** X18. [relay] hands the upstream response back with its status, status
    text and body, without the headers [cf-ray] and [cf-cache-status] and
    with every other header as it was; it throws exactly when the
    [Response] constructor refuses the status, status text and body. *)
Theorem relay_strips_cloudflare_headers (response : Worker.Response) :
  match responseInitError (Worker.responseBody response) (Worker.status response)
          (Worker.statusText response) with
  | Some e => relay response = Thrown e
  | None =>
      exists r,
        relay response = Returned r /\
        Worker.responseBody r = Worker.responseBody response /\
        Worker.status r = Worker.status response /\
        Worker.statusText r = Worker.statusText response /\
        Worker.responseHeaders r !! "cf-ray" = None /\
        Worker.responseHeaders r !! "cf-cache-status" = None /\
        forall name,
          name <> "cf-ray" -> name <> "cf-cache-status" ->
          Worker.responseHeaders r !! name = Worker.responseHeaders response !! name
  end.
Proof.
  unfold Worker.relay. cbv zeta.
  destruct (responseInitError _ _ _) as [e|]; [done|].
  eexists. split; [done|]. simpl. unfold Worker.headers_delete.
  change (JsString.toLowerCase "cf-ray") with "cf-ray".
  change (JsString.toLowerCase "cf-cache-status") with "cf-cache-status".
  repeat split.
  - rewrite lookup_delete_ne by done. apply lookup_delete_eq.
  - apply lookup_delete_eq.
  - intros name ? ?. by rewrite !lookup_delete_ne.
Qed.

(** X19. A worker without a complete service token (one of the two
    secrets missing or empty) behaves as the worker did before it knew
    service tokens. *)
Theorem worker_without_token_is_legacy (request : Worker.Request) (env : Worker.Env) :
  truthy (Worker.CF_ACCESS_CLIENT_ID env) &&
  truthy (Worker.CF_ACCESS_CLIENT_SECRET env) = false ->
  workerFetch request env = workerFetchLegacy request env.
Proof.
  intros Hno. unfold Worker.fetch, Worker.fetchLegacy, Worker.buildProxyRequest.
  destruct (Worker.CLOUD_RUN_URL env) as [cloudRunUrl|]; [|done].
  destruct (JsString.nonempty cloudRunUrl); [|done].
  destruct (forwarding cloudRunUrl request) as [[targetUrl h]|e]; [|done].
  simpl.
  assert (inject env h = Returned h) as ->; [|done].
  unfold Worker.injectServiceToken, truthy in *.
  destruct (Worker.CF_ACCESS_CLIENT_ID env) as [id|];
    destruct (Worker.CF_ACCESS_CLIENT_SECRET env) as [secret|]; try done.
  by rewrite Hno.
Qed.

End WorkerProperties.

(** ** The worker in front of the gate *)

Section WorkerAndGate.

Variable newURL : string -> option string -> completion Worker.URL.
Variable headerValue : string -> completion string.
Variable network : nat -> string -> FetchOutcome.
Variable jwtVerify :
  string -> JSONWebKeySet -> string -> string -> Z -> JsError + JWTVerifyResult.

#[local] Abbreviation build := (Worker.buildProxyRequest newURL headerValue).

(** The two service-token headers of a proxied request, read as the gate
    reads them. *)
Lemma proxied_service_token_headers (env : Worker.Env) (cloudRunUrl : string)
    (request : Worker.Request) (pr : Worker.ProxyRequest) (req : Request)
    (id secret id' secret' : string) :
  Worker.CF_ACCESS_CLIENT_ID env = Some id ->
  Worker.CF_ACCESS_CLIENT_SECRET env = Some secret ->
  JsString.nonempty id = true ->
  JsString.nonempty secret = true ->
  headerValue id = Returned id' ->
  headerValue secret = Returned secret' ->
  build env cloudRunUrl request = Returned pr ->
  headers req !! "cf-access-client-id" =
    Worker.proxyHeaders pr !! "cf-access-client-id" ->
  headers req !! "cf-access-client-secret" =
    Worker.proxyHeaders pr !! "cf-access-client-secret" ->
  header req "CF-Access-Client-Id" = Some id' /\
  header req "CF-Access-Client-Secret" = Some secret'.
Proof.
  intros Hid Hsecret Hnid Hnsecret Hvid Hvsecret Hbuild Hhid Hhsecret.
  apply buildProxyRequest_Returned in Hbuild as (targetUrl & h & _ & Hinject & _).
  apply injectServiceToken_Returned in Hinject.
  rewrite Hid, Hsecret, Hnid, Hnsecret in Hinject. simpl in Hinject.
  destruct Hinject as (i & s & Hi & Hs & Hpr).
  assert (i = id') as -> by congruence. assert (s = secret') as -> by congruence.
  unfold header.
  change (JsString.toLowerCase "CF-Access-Client-Id") with "cf-access-client-id".
  change (JsString.toLowerCase "CF-Access-Client-Secret") with "cf-access-client-secret".
  rewrite Hhid, Hhsecret, Hpr.
  split.
  - rewrite lookup_insert_ne by done. apply lookup_insert_eq.
  - apply lookup_insert_eq.
Qed.

(** X20. A worker holding the service token the application expects gets
    every request it forwards admitted as that service token, whatever the
    client sent (forged service-token headers, no assertion, a bad
    assertion), unless the path is bypassed or the gate disabled; the
    application does not call the verifier or the network for it. The
    secrets are values the platform's [Headers] keeps as they are, and the
    two service-token headers arrive at the application as the worker sent
    them. *)
Theorem worker_token_admitted_by_gate (wenv : Worker.Env) (genv : Env)
    (cloudRunUrl : string) (request : Worker.Request) (pr : Worker.ProxyRequest)
    (req : Request) (w : World) (id secret : string) :
  Worker.CF_ACCESS_CLIENT_ID wenv = Some id ->
  Worker.CF_ACCESS_CLIENT_SECRET wenv = Some secret ->
  CF_ACCESS_SERVICE_TOKEN_ID genv = Some id ->
  CF_ACCESS_SERVICE_TOKEN_SECRET genv = Some secret ->
  JsString.nonempty id = true ->
  JsString.nonempty secret = true ->
  headerValue id = Returned id ->
  headerValue secret = Returned secret ->
  build wenv cloudRunUrl request = Returned pr ->
  headers req !! "cf-access-client-id" =
    Worker.proxyHeaders pr !! "cf-access-client-id" ->
  headers req !! "cf-access-client-secret" =
    Worker.proxyHeaders pr !! "cf-access-client-secret" ->
  CF_ACCESS_ENABLED genv = true ->
  shouldBypassAuth genv (path req) = false ->
  cfAccessMiddleware network jwtVerify genv req w =
  (Returned (Next, setIdentity (ServiceTokenIdentity id) req),
   afterCredentialRead req w).
Proof.
  intros Hid Hsecret Hgid Hgsecret Hnid Hnsecret Hvid Hvsecret Hbuild Hh1 Hh2
    Hon Hpath.
  destruct (proxied_service_token_headers wenv cloudRunUrl request pr req
              id secret id secret) as [Hhid Hhsecret]; try done.
  rewrite cfAccessMiddleware_cases.
  rewrite gateState_CheckingServiceToken; try done.
  - unfold validateServiceToken. rewrite Hhid, Hhsecret, Hgid, Hgsecret. simpl.
    rewrite Hnid, Hnsecret. simpl. by rewrite !bool_decide_eq_true_2.
  - unfold serviceTokenPresented. rewrite Hhid, Hhsecret. simpl.
    by rewrite Hnid, Hnsecret.
Qed.

(** X21. A worker holding a service token other than the one the
    application expects gets every request it forwards denied with the 403
    for invalid service-token credentials, also the requests of clients
    that carry a valid assertion: the injected headers commit the request
    to the service-token check. *)
Theorem worker_wrong_token_denied_by_gate (wenv : Worker.Env) (genv : Env)
    (cloudRunUrl : string) (request : Worker.Request) (pr : Worker.ProxyRequest)
    (req : Request) (w : World) (id secret id' secret' : string) :
  Worker.CF_ACCESS_CLIENT_ID wenv = Some id ->
  Worker.CF_ACCESS_CLIENT_SECRET wenv = Some secret ->
  JsString.nonempty id = true ->
  JsString.nonempty secret = true ->
  headerValue id = Returned id' ->
  headerValue secret = Returned secret' ->
  JsString.nonempty id' = true ->
  JsString.nonempty secret' = true ->
  (Some id' <> CF_ACCESS_SERVICE_TOKEN_ID genv \/
   Some secret' <> CF_ACCESS_SERVICE_TOKEN_SECRET genv) ->
  build wenv cloudRunUrl request = Returned pr ->
  headers req !! "cf-access-client-id" =
    Worker.proxyHeaders pr !! "cf-access-client-id" ->
  headers req !! "cf-access-client-secret" =
    Worker.proxyHeaders pr !! "cf-access-client-secret" ->
  CF_ACCESS_ENABLED genv = true ->
  shouldBypassAuth genv (path req) = false ->
  cfAccessMiddleware network jwtVerify genv req w =
  (Returned (invalidServiceToken, req), afterCredentialRead req w).
Proof.
  intros Hid Hsecret Hnid Hnsecret Hvid Hvsecret Hnid' Hnsecret' Hwrong Hbuild
    Hh1 Hh2 Hon Hpath.
  destruct (proxied_service_token_headers wenv cloudRunUrl request pr req
              id secret id' secret') as [Hhid Hhsecret]; try done.
  rewrite cfAccessMiddleware_cases.
  rewrite gateState_CheckingServiceToken; try done.
  - assert (validateServiceToken genv (header req "CF-Access-Client-Id")
              (header req "CF-Access-Client-Secret") = false) as ->; [|done].
    apply validateServiceToken_false. rewrite Hhid, Hhsecret.
    destruct Hwrong; auto.
  - unfold serviceTokenPresented. rewrite Hhid, Hhsecret. simpl.
    by rewrite Hnid', Hnsecret'.
Qed.

End WorkerAndGate.

(** ** Configuration errors and traffic inside the hour *)

Section Traffic.

Variable network : nat -> string -> FetchOutcome.
Variable jwtVerify :
  string -> JSONWebKeySet -> string -> string -> Z -> JsError + JWTVerifyResult.
Variable env : Env.

#[local] Abbreviation middleware := (cfAccessMiddleware network jwtVerify env).
#[local] Abbreviation middlewareAt := (cfAccessMiddlewareAt network jwtVerify env).
#[local] Abbreviation getJWKS := (getCloudflareJWKS network env).

(** X22. Without a team domain or without an audience, a request on the
    assertion path is denied before anything is looked up: no fetch, no
    call of jose, the cache left alone, also when a fresh key set is cached
    and the token would verify. *)
Theorem unconfigured_verifier_denies_at_once (req : Request) (w : World)
    (token : string) :
  CF_ACCESS_ENABLED env = true ->
  shouldBypassAuth env (path req) = false ->
  serviceTokenPresented req = false ->
  header req "CF-Access-JWT-Assertion" = Some token ->
  JsString.nonempty token = true ->
  truthy (CF_ACCESS_TEAM_DOMAIN env) = false \/ truthy (CF_ACCESS_AUD env) = false ->
  middleware req w =
  (Returned (invalidAssertion, req),
   record (VerifyCalled token) (afterAssertionRead req w)).
Proof.
  intros Hon Hpath Hnone Hheader Htoken Hconfig.
  rewrite cfAccessMiddleware_cases, gateState_CheckingAssertion by done.
  rewrite jwtAuthentication_cases. cbv zeta. rewrite Hheader. simpl truthy.
  rewrite Htoken. simpl interpolate.
  rewrite verifyCloudflareAccessToken_cases. cbv zeta.
  assert (negb (truthy (CF_ACCESS_TEAM_DOMAIN env)) ||
          negb (truthy (CF_ACCESS_AUD env)) = true) as ->; [|done].
  destruct Hconfig as [-> | ->]; [done | by rewrite orb_true_r].
Qed.

(** X23. Without a team domain the key-set call never reaches the network:
    it still serves a fresh cached set when there is one (a cached value
    that is truthy and younger than the hour), and otherwise throws
    "CF_ACCESS_TEAM_DOMAIN is not configured" and leaves the world as it
    was. *)
Theorem getCloudflareJWKS_without_team_domain (w : World) :
  truthy (CF_ACCESS_TEAM_DOMAIN env) = false ->
  snd (getJWKS w) = w /\
  match cachedJWKS w with
  | Some jwks =>
      if jsonTruthy jwks && (clock w - jwksCacheTime w <? JWKS_CACHE_TTL)
      then fst (getJWKS w) = Returned jwks
      else fst (getJWKS w) =
           Thrown {| message := "CF_ACCESS_TEAM_DOMAIN is not configured" |}
  | None =>
      fst (getJWKS w) =
      Thrown {| message := "CF_ACCESS_TEAM_DOMAIN is not configured" |}
  end.
Proof.
  intros Hdomain.
  unfold getCloudflareJWKS, bind, Date_now, readCache, refreshCloudflareJWKS.
  rewrite Hdomain. simpl.
  destruct (cachedJWKS w) as [jwks|]; [|done].
  by destruct (_ && _).
Qed.

(** A request that finds the cache fresh leaves it as it is and makes no
    fetch. *)
Lemma cfAccessMiddleware_fresh_cache (req : Request) (w : World) :
  cacheFresh w = true ->
  cachedJWKS (snd (middleware req w)) = cachedJWKS w /\
  jwksCacheTime (snd (middleware req w)) = jwksCacheTime w /\
  fetchCount (trace (snd (middleware req w))) = fetchCount (trace w).
Proof.
  intros Hfresh. rewrite cfAccessMiddleware_cases.
  destruct (gateState env req); try done.
  { by destruct (validateServiceToken _ _ _). }
  rewrite jwtAuthentication_cases. cbv zeta.
  destruct (truthy _); [|done].
  rewrite verifyCloudflareAccessToken_cases. cbv zeta.
  set (w1 := record (VerifyCalled _) _).
  destruct (negb _ || negb _); [done|].
  assert (cacheFresh w1 = true) as Hfresh1 by done.
  destruct (getCloudflareJWKS_hit network env w1 Hfresh1) as (jwks & Hc & ->).
  by destruct (jwtVerify _ _ _ _ _).
Qed.

(** X24. However many requests arrive while the cached key set (a truthy
    cached value) is younger than the hour, they make no fetch and leave the
    cache as it is: the key endpoint sees at most one fetch per hour of
    traffic once a fetch has delivered a key set. *)
Theorem traffic_within_ttl_makes_no_fetch (requests : list (Z * Request))
    (w : World) (jwks : JSONWebKeySet) :
  cachedJWKS w = Some jwks ->
  jsonTruthy jwks = true ->
  Forall (fun timed => fst timed - jwksCacheTime w < JWKS_CACHE_TTL) requests ->
  length (fst (middlewareAt requests w)) = length requests /\
  fetchCount (trace (snd (middlewareAt requests w))) = fetchCount (trace w) /\
  cachedJWKS (snd (middlewareAt requests w)) = Some jwks /\
  jwksCacheTime (snd (middlewareAt requests w)) = jwksCacheTime w.
Proof.
  intros Hc Htruthy. revert w Hc.
  induction requests as [|[t req] requests IH]; intros w Hc Hall; simpl.
  { done. }
  apply Forall_cons in Hall as [Ht Hall]. simpl in Ht.
  assert (cacheFresh (atTime t w) = true) as Hfresh.
  { rewrite (cacheFresh_atTime _ _ jwks), Htruthy by done.
    by apply bool_decide_eq_true. }
  destruct (cfAccessMiddleware_fresh_cache req (atTime t w) Hfresh)
    as (Hc1 & Ht1 & Hf1).
  destruct (middleware req (atTime t w)) as [r w1]. simpl in *.
  specialize (IH w1). rewrite Hc1, Ht1 in IH. specialize (IH Hc Hall).
  destruct (middlewareAt requests w1) as [rs w2]. simpl in *.
  destruct IH as (Hlen & Hf & Hc2 & Ht2).
  repeat split; [by rewrite Hlen | congruence | done | done].
Qed.

End Traffic.

(** ** The further properties at sample inputs *)

Lemma service_token_admitted_iff_equal_witness :
  exists clientId,
    header Sample.goodServiceToken "CF-Access-Client-Id" = Some clientId /\
    cfAccessMiddleware Sample.networkDown Sample.verifier Sample.env
      Sample.goodServiceToken (initialWorld 1000) =
    (Returned (Next, setIdentity (ServiceTokenIdentity clientId) Sample.goodServiceToken),
     afterCredentialRead Sample.goodServiceToken (initialWorld 1000)).
Proof.
  destruct (service_token_admitted_iff_equal Sample.networkDown Sample.verifier
              Sample.env Sample.goodServiceToken
              (initialWorld 1000) eq_refl eq_refl eq_refl) as [Hadmit _].
  apply Hadmit. split; vm_compute; reflexivity.
Defined.

Lemma missing_credentials_denied_witness :
  truthy (header Sample.noHeaders "CF-Access-JWT-Assertion") = false /\
  cfAccessMiddleware Sample.networkUp Sample.verifier Sample.env
    Sample.noHeaders (initialWorld 1000) =
  (Returned (missingCredentials, Sample.noHeaders),
   afterAssertionRead Sample.noHeaders (initialWorld 1000)).
Proof.
  split; [reflexivity|].
  exact (missing_credentials_denied Sample.networkUp Sample.verifier Sample.env
           Sample.noHeaders (initialWorld 1000) eq_refl eq_refl eq_refl eq_refl).
Defined.

Lemma only_assertion_path_has_effects_witness :
  gateState Sample.env Sample.goodServiceToken <> CheckingAssertion /\
  fetchCount (trace (snd (cfAccessMiddleware Sample.networkUp Sample.verifier
                            Sample.env Sample.goodServiceToken (initialWorld 1000)))) =
  fetchCount (trace (initialWorld 1000)).
Proof.
  assert (gateState Sample.env Sample.goodServiceToken <> CheckingAssertion) as H
    by (vm_compute; discriminate).
  split; [exact H|].
  apply (only_assertion_path_has_effects Sample.networkUp Sample.verifier
           Sample.env Sample.goodServiceToken (initialWorld 1000) H).
Defined.

Lemma getCloudflareJWKS_recovers_witness :
  let network := fun n (_ : string) =>
                   match n with
                   | O => Sample.networkDown O ""
                   | S _ => Sample.networkUp n ""
                   end in
  let w1 := snd (getCloudflareJWKS network Sample.env (initialWorld 1000)) in
  (exists e, fst (getCloudflareJWKS network Sample.env (initialWorld 1000)) = Thrown e) /\
  fst (getCloudflareJWKS network Sample.env (atTime 2000 w1)) = Returned Sample.jwks.
Proof.
  intros network w1.
  assert (1000 <= 2000) as Hlater by lia.
  destruct (getCloudflareJWKS_recovers network Sample.env (initialWorld 1000) 2000
              {| status := 200; statusText := "OK"; json := inr Sample.jwks |}
              Sample.jwks eq_refl eq_refl eq_refl Hlater eq_refl eq_refl eq_refl)
    as [Hfail Hnext].
  split; [exact Hfail|]. unfold w1. by rewrite Hnext.
Defined.

Lemma assertion_admission_is_verified_witness :
  gateState Sample.env Sample.goodAssertion = CheckingAssertion /\
  exists token jwks result,
    header Sample.goodAssertion "CF-Access-JWT-Assertion" = Some token /\
    Sample.verifier token jwks "https://team.cloudflareaccess.com" "aud-tag" 1000 =
      inr result.
Proof.
  split; [reflexivity|].
  assert (fst (cfAccessMiddleware Sample.networkUp Sample.verifier Sample.env
                 Sample.goodAssertion (initialWorld 1000)) =
          Returned (Next, setIdentity (identityOfClaims Sample.claims)
                            Sample.goodAssertion)) as Hfst
    by (vm_compute; reflexivity).
  destruct (cfAccessMiddleware Sample.networkUp Sample.verifier Sample.env
              Sample.goodAssertion (initialWorld 1000)) as [r w'] eqn:Hrun.
  simpl in Hfst. subst r.
  destruct (assertion_admission_is_verified Sample.networkUp Sample.verifier
              Sample.env Sample.goodAssertion _ (initialWorld 1000) w'
              eq_refl Hrun)
    as (_ & _ & token & jwks & result & Hheader & _ & Hverify & _).
  exists token, jwks, result. split; [exact Hheader | exact Hverify].
Defined.

Lemma fresh_cache_hides_the_network_witness :
  cacheFresh (atTime 2000 (storeJWKS Sample.jwks 1000 (initialWorld 0))) = true /\
  cfAccessMiddleware Sample.networkUp Sample.verifier Sample.env
    Sample.goodAssertion (atTime 2000 (storeJWKS Sample.jwks 1000 (initialWorld 0))) =
  cfAccessMiddleware Sample.networkDown Sample.verifier Sample.env
    Sample.goodAssertion (atTime 2000 (storeJWKS Sample.jwks 1000 (initialWorld 0))).
Proof.
  split; [reflexivity|].
  exact (fresh_cache_hides_the_network Sample.verifier Sample.env
           Sample.networkUp Sample.networkDown Sample.goodAssertion
           (atTime 2000 (storeJWKS Sample.jwks 1000 (initialWorld 0))) eq_refl).
Defined.

Lemma legacy_agrees_without_service_token_witness :
  serviceTokenPresented Sample.loneClientId = false /\
  exists handled annotation wNew wOld,
    cfAccessMiddleware Sample.networkUp Sample.verifier Sample.env
      Sample.loneClientId (initialWorld 1000) =
      (Returned (handled, annotate annotation Sample.loneClientId), wNew) /\
    cfAccessMiddlewareLegacy Sample.networkUp Sample.verifier Sample.env
      Sample.loneClientId (initialWorld 1000) =
      (Returned (handled, annotation ≫= withoutType), wOld) /\
    sameState wNew wOld.
Proof.
  split; [reflexivity|].
  destruct (legacy_agrees_without_service_token Sample.verifier Sample.env
              Sample.networkUp Sample.loneClientId (initialWorld 1000) eq_refl)
    as (handled & annotation & wNew & wOld & Hnew & Hold & Hsame & _).
  exists handled, annotation, wNew, wOld.
  exact (conj Hnew (conj Hold Hsame)).
Defined.

Lemma worker_build_sample :
  Worker.buildProxyRequest WorkerSample.newURL WorkerSample.headerValue
    WorkerSample.env "https://svc-xyz.a.run.app" WorkerSample.request =
  Returned WorkerSample.proxied.
Proof. vm_compute. reflexivity. Qed.

Lemma worker_build_sample_wrong :
  Worker.buildProxyRequest WorkerSample.newURL WorkerSample.headerValue
    WorkerSample.envWrongToken "https://svc-xyz.a.run.app" WorkerSample.request =
  Returned WorkerSample.proxiedWrong.
Proof. vm_compute. reflexivity. Qed.

Lemma worker_build_sample_without_token :
  Worker.buildProxyRequest WorkerSample.newURL WorkerSample.headerValue
    WorkerSample.envWithoutToken "https://svc-xyz.a.run.app" WorkerSample.request =
  Returned WorkerSample.proxiedWithoutToken.
Proof. vm_compute. reflexivity. Qed.

Lemma worker_token_overrides_client_witness :
  Worker.headers WorkerSample.request !! "cf-access-client-id" = Some "forged" /\
  exists id' secret',
    Worker.proxyHeaders WorkerSample.proxied !! "cf-access-client-id" = Some id' /\
    Worker.proxyHeaders WorkerSample.proxied !! "cf-access-client-secret" = Some secret' /\
    WorkerSample.headerValue "svc-id" = Returned id' /\
    WorkerSample.headerValue "svc-secret" = Returned secret'.
Proof.
  split; [reflexivity|].
  destruct (worker_token_overrides_client WorkerSample.newURL
              WorkerSample.headerValue WorkerSample.env "https://svc-xyz.a.run.app"
              WorkerSample.request WorkerSample.proxied "svc-id" "svc-secret"
              eq_refl eq_refl eq_refl eq_refl worker_build_sample)
    as (id' & secret' & Hid & Hsecret & Hhid & Hhsecret).
  exists id', secret'. exact (conj Hhid (conj Hhsecret (conj Hid Hsecret))).
Defined.

Lemma worker_forwards_what_it_does_not_write_witness :
  Worker.proxyHeaders WorkerSample.proxiedWithoutToken !! "accept" =
    Worker.headers WorkerSample.request !! "accept" /\
  Worker.proxyHeaders WorkerSample.proxiedWithoutToken !! "cf-access-client-id" =
    Worker.headers WorkerSample.request !! "cf-access-client-id".
Proof.
  destruct (worker_forwards_what_it_does_not_write WorkerSample.newURL
              WorkerSample.headerValue WorkerSample.envWithoutToken
              "https://svc-xyz.a.run.app" WorkerSample.request
              WorkerSample.proxiedWithoutToken worker_build_sample_without_token)
    as (_ & _ & _ & Hother & _ & Htoken).
  split.
  - apply Hother. unfold Worker.writtenNames. rewrite !not_elem_of_cons.
    repeat split; try discriminate. apply not_elem_of_nil.
  - apply (Htoken eq_refl).
Defined.

Lemma worker_forwarding_headers_witness :
  exists url targetUrl host proto,
    WorkerSample.newURL (Worker.url WorkerSample.request) None = Returned url /\
    Worker.target WorkerSample.proxied = Worker.href targetUrl /\
    Worker.proxyHeaders WorkerSample.proxied !! "x-forwarded-host" = Some host /\
    Worker.proxyHeaders WorkerSample.proxied !! "x-forwarded-proto" = Some proto.
Proof.
  destruct (worker_forwarding_headers WorkerSample.newURL WorkerSample.headerValue
              WorkerSample.env "https://svc-xyz.a.run.app" WorkerSample.request
              WorkerSample.proxied worker_build_sample)
    as (url & targetUrl & host & proto & Hurl & _ & Htarget & _ & Hhost & _ & Hproto & _).
  exists url, targetUrl, host, proto.
  exact (conj Hurl (conj Htarget (conj Hhost Hproto))).
Defined.

Lemma worker_without_token_is_legacy_witness :
  Worker.fetch WorkerSample.newURL WorkerSample.headerValue WorkerSample.upstream
    WorkerSample.responseInitError WorkerSample.request WorkerSample.envWithoutToken =
  Worker.fetchLegacy WorkerSample.newURL WorkerSample.headerValue WorkerSample.upstream
    WorkerSample.responseInitError WorkerSample.request WorkerSample.envWithoutToken.
Proof.
  exact (worker_without_token_is_legacy WorkerSample.newURL WorkerSample.headerValue
           WorkerSample.upstream WorkerSample.responseInitError WorkerSample.request
           WorkerSample.envWithoutToken eq_refl).
Defined.

Lemma worker_token_admitted_by_gate_witness :
  header WorkerSample.gateRequest "CF-Access-JWT-Assertion" = None /\
  cfAccessMiddleware Sample.networkDown Sample.verifier Sample.env
    WorkerSample.gateRequest (initialWorld 1000) =
  (Returned (Next, setIdentity (ServiceTokenIdentity "svc-id") WorkerSample.gateRequest),
   afterCredentialRead WorkerSample.gateRequest (initialWorld 1000)).
Proof.
  split; [reflexivity|].
  exact (worker_token_admitted_by_gate WorkerSample.newURL WorkerSample.headerValue
           Sample.networkDown Sample.verifier WorkerSample.env Sample.env
           "https://svc-xyz.a.run.app" WorkerSample.request WorkerSample.proxied
           WorkerSample.gateRequest (initialWorld 1000) "svc-id" "svc-secret"
           eq_refl eq_refl eq_refl eq_refl eq_refl eq_refl eq_refl eq_refl
           worker_build_sample eq_refl eq_refl eq_refl eq_refl).
Defined.

Lemma worker_wrong_token_denied_by_gate_witness :
  cfAccessMiddleware Sample.networkUp Sample.verifier Sample.env
    WorkerSample.gateRequestWrong (initialWorld 1000) =
  (Returned (invalidServiceToken, WorkerSample.gateRequestWrong),
   afterCredentialRead WorkerSample.gateRequestWrong (initialWorld 1000)).
Proof.
  assert (Some "svc-id" <> CF_ACCESS_SERVICE_TOKEN_ID Sample.env \/
          Some "stale-secret" <> CF_ACCESS_SERVICE_TOKEN_SECRET Sample.env) as Hwrong
    by (right; discriminate).
  exact (worker_wrong_token_denied_by_gate WorkerSample.newURL WorkerSample.headerValue
           Sample.networkUp Sample.verifier WorkerSample.envWrongToken Sample.env
           "https://svc-xyz.a.run.app" WorkerSample.request WorkerSample.proxiedWrong
           WorkerSample.gateRequestWrong (initialWorld 1000)
           "svc-id" "stale-secret" "svc-id" "stale-secret"
           eq_refl eq_refl eq_refl eq_refl eq_refl eq_refl eq_refl eq_refl Hwrong
           worker_build_sample_wrong eq_refl eq_refl eq_refl eq_refl).
Defined.

Lemma unconfigured_verifier_denies_at_once_witness :
  truthy (CF_ACCESS_TEAM_DOMAIN Sample.envNoIssuer) = false /\
  cfAccessMiddleware Sample.networkUp Sample.verifier Sample.envNoIssuer
    Sample.goodAssertion (atTime 2000 (storeJWKS Sample.jwks 1000 (initialWorld 0))) =
  (Returned (invalidAssertion, Sample.goodAssertion),
   record (VerifyCalled "valid.jwt")
     (afterAssertionRead Sample.goodAssertion
        (atTime 2000 (storeJWKS Sample.jwks 1000 (initialWorld 0))))).
Proof.
  split; [reflexivity|].
  exact (unconfigured_verifier_denies_at_once Sample.networkUp Sample.verifier
           Sample.envNoIssuer Sample.goodAssertion
           (atTime 2000 (storeJWKS Sample.jwks 1000 (initialWorld 0))) "valid.jwt"
           eq_refl eq_refl eq_refl eq_refl eq_refl (or_introl eq_refl)).
Defined.

Lemma getCloudflareJWKS_without_team_domain_witness :
  truthy (CF_ACCESS_TEAM_DOMAIN Sample.envNoIssuer) = false /\
  getCloudflareJWKS Sample.networkUp Sample.envNoIssuer (initialWorld 1000) =
  (Thrown {| message := "CF_ACCESS_TEAM_DOMAIN is not configured" |},
   initialWorld 1000).
Proof.
  split; [reflexivity|].
  destruct (getCloudflareJWKS_without_team_domain Sample.networkUp
              Sample.envNoIssuer (initialWorld 1000) eq_refl) as [Hw Hr].
  apply injective_projections; [exact Hr | exact Hw].
Defined.

Lemma traffic_within_ttl_makes_no_fetch_witness :
  let w := storeJWKS Sample.jwks 1000 (initialWorld 0) in
  let requests := [(2000, Sample.goodAssertion); (5000, Sample.noHeaders);
                   (3600999, Sample.goodAssertion)] in
  cachedJWKS w = Some Sample.jwks /\
  jsonTruthy Sample.jwks = true /\
  Forall (fun timed => fst timed - jwksCacheTime w < JWKS_CACHE_TTL) requests /\
  fetchCount (trace (snd (cfAccessMiddlewareAt Sample.networkUp Sample.verifier
                            Sample.env requests w))) = fetchCount (trace w).
Proof.
  intros w requests.
  assert (Forall (fun timed => fst timed - jwksCacheTime w < JWKS_CACHE_TTL)
            requests) as Hall
    by (unfold requests, w; repeat (constructor; [reflexivity|]); constructor).
  destruct (traffic_within_ttl_makes_no_fetch Sample.networkUp Sample.verifier
              Sample.env requests w Sample.jwks eq_refl eq_refl Hall)
    as (_ & Hf & _).
  exact (conj eq_refl (conj eq_refl (conj Hall Hf))).
Defined.
